(** * Local-Pilot: the chat front-end and its mock Tauri backend

    A shallow embedding of [src/mock-tauri.ts] (the [invoke] that is used
    when the Tauri bridge cannot be loaded) and of the event handlers of
    the [App] component ([handleSubmit], [handleApproveOperation],
    [handleRejectOperation], [updateOperationStatus]).

    - JavaScript values are the inductive [Value]; strings are kept as
      their UTF-8 bytes.
    - The handlers run in a state-and-exception monad [M] over [Sys]: the
      React store, the world (console, clock, random source), the
      commands handed to [invoke] and the flag of the form event.
    - A handler is a closure of one render: it reads the state of that
      render (its [snap] argument) and writes through the setters, which
      act on the store.
    - A handler runs to its end before the next event is taken: what
      other events do while a handler waits for its promise is not
      modelled.
    - A [Backend] settles every promise: it resolves or it rejects. A
      promise that is never settled, which would leave a handler waiting
      at its [await] for good, is outside the model, and every statement
      below about what a handler leaves behind is about settled
      promises. *)

From Stdlib Require Import String Ascii List ZArith QArith Bool Lia DecimalString.
From Stdlib Require DecimalPos DecimalZ.
From stdpp Require Import base option list strings gmap.

Set Warnings "-register-all".

(** ** JavaScript values *)

(** The values that cross the [invoke] boundary: JSON data, [undefined],
    and [Error] instances. Numbers are the integers (of magnitude below
    2^53), the only numbers the sources produce: sizes and clock
    readings. [VObj] lists the own enumerable properties of a plain
    object in enumeration order. *)
Inductive Value : Type :=
| VUndefined
| VNull
| VBool (b : bool)
| VNum (n : Z)
| VStr (s : string)
| VArr (items : list Value)
| VObj (fields : list (string * Value))
| VError (name message : string).

(** The result of running a piece of code: a value, or a thrown value. *)
Inductive Outcome (A : Type) : Type :=
| Ok (a : A)
| Throw (e : Value).
Arguments Ok {A} a.
Arguments Throw {A} e.

Definition TypeError (message : string) : Value := VError "TypeError" message.

(** Own property [key] of a plain object. *)
Fixpoint own_property (fields : list (string * Value)) (key : string) : option Value :=
  match fields with
  | [] => None
  | (k, v) :: rest => if String.eqb k key then Some v else own_property rest key
  end.

(** [v.key] for the keys the sources read ([name], [message], [toolName]),
    none of which is inherited from a prototype except on [Error]
    instances. Reading a property of [null] or [undefined] throws. *)
Definition get_property (v : Value) (key : string) : Outcome Value :=
  match v with
  | VUndefined =>
      Throw (TypeError ("Cannot read properties of undefined (reading '" +:+ key +:+ "')"))
  | VNull =>
      Throw (TypeError ("Cannot read properties of null (reading '" +:+ key +:+ "')"))
  | VObj fields => Ok (default VUndefined (own_property fields key))
  | VError name message =>
      if String.eqb key "message" then Ok (VStr message)
      else if String.eqb key "name" then Ok (VStr name)
      else Ok VUndefined
  | _ => Ok VUndefined
  end.

(** [v?.key]: [undefined] when [v] is [null] or [undefined]. *)
Definition optional_property (v : Value) (key : string) : Value :=
  match v with
  | VUndefined | VNull => VUndefined
  | _ => match get_property v key with Ok x => x | Throw _ => VUndefined end
  end.

Definition Z_to_string (n : Z) : string := NilZero.string_of_int (Z.to_int n).

(** [Array.prototype.join(",")] over already converted items. *)
Fixpoint join_comma (parts : list string) : string :=
  match parts with
  | [] => ""
  | [p] => p
  | p :: rest => p +:+ "," +:+ join_comma rest
  end.

(** [ToString], as applied by a template literal; [None] when it throws
    the TypeError "Cannot convert object to primitive value": a plain
    object whose own [toString] property shadows the inherited method
    (own properties of these values are never callable). *)
Fixpoint to_string (v : Value) : option string :=
  match v with
  | VUndefined => Some "undefined"
  | VNull => Some "null"
  | VBool true => Some "true"
  | VBool false => Some "false"
  | VNum n => Some (Z_to_string n)
  | VStr s => Some s
  | VArr items =>
      let item (x : Value) : option string :=
        match x with
        | VUndefined | VNull => Some ""
        | _ => to_string x
        end in
      join_comma <$> mapM item items
  | VObj fields =>
      match own_property fields "toString" with
      | Some _ => None
      | None => Some "[object Object]"
      end
  | VError name message =>
      if String.eqb name "" then Some message
      else if String.eqb message "" then Some name
      else Some (name +:+ ": " +:+ message)
  end.

Definition cannot_convert : Value := TypeError "Cannot convert object to primitive value".

(** [typeof v === 'string'] *)
Definition is_string (v : Value) : bool :=
  match v with VStr _ => true | _ => false end.

(** [v === s] for a string literal [s]. *)
Definition strict_equals_string (v : Value) (s : string) : bool :=
  match v with VStr t => String.eqb t s | _ => false end.

(** ** Strings *)

Definition quote : string := String (ascii_of_nat 34) EmptyString.
Definition backslash : string := String (ascii_of_nat 92) EmptyString.

Definition hex_digit (n : N) : ascii :=
  ascii_of_N (if (n <? 10)%N then 48 + n else 87 + n)%N.

(** The escape of one byte inside a JSON string (QuoteJSONString). *)
Definition json_escape (c : ascii) : string :=
  let n := N_of_ascii c in
  if (n =? 34)%N then backslash +:+ quote
  else if (n =? 92)%N then backslash +:+ backslash
  else if (n =? 8)%N then backslash +:+ "b"
  else if (n =? 9)%N then backslash +:+ "t"
  else if (n =? 10)%N then backslash +:+ "n"
  else if (n =? 12)%N then backslash +:+ "f"
  else if (n =? 13)%N then backslash +:+ "r"
  else if (n <? 32)%N then
    backslash +:+ "u00" +:+ String (hex_digit (n / 16)) (String (hex_digit (n mod 16)) EmptyString)
  else String c EmptyString.

Fixpoint json_escape_all (s : string) : string :=
  match s with
  | EmptyString => EmptyString
  | String c rest => json_escape c +:+ json_escape_all rest
  end.

Definition json_quote (s : string) : string := quote +:+ json_escape_all s +:+ quote.

(** [JSON.stringify(v)]; [None] is the result [undefined]. *)
Fixpoint JSON_stringify (v : Value) : option string :=
  match v with
  | VUndefined => None
  | VNull => Some "null"
  | VBool true => Some "true"
  | VBool false => Some "false"
  | VNum n => Some (Z_to_string n)
  | VStr s => Some (json_quote s)
  | VArr items =>
      let item (x : Value) : string := default "null" (JSON_stringify x) in
      Some ("[" +:+ join_comma (item <$> items) +:+ "]")
  | VObj fields =>
      let member (kv : string * Value) : option string :=
        (fun text => json_quote kv.1 +:+ ":" +:+ text) <$> JSON_stringify kv.2 in
      Some ("{" +:+ join_comma (omap member fields) +:+ "}")
  | VError _ _ => Some "{}"
  end.

(** A result of [JSON.stringify] as a value. *)
Definition stringified (v : Value) : Value :=
  match JSON_stringify v with
  | Some text => VStr text
  | None => VUndefined
  end.

Definition of_bytes (codes : list N) : string :=
  fold_right (fun n rest => String (ascii_of_N n) rest) EmptyString codes.

Definition is_continuation (c : ascii) : bool :=
  let n := N_of_ascii c in (128 <=? n)%N && (n <? 192)%N.

(** The code points of a string, each as its UTF-8 bytes. *)
Fixpoint code_points (s : string) : list string :=
  match s with
  | EmptyString => []
  | String c rest =>
      match code_points rest with
      | String d tail :: more =>
          if is_continuation d then String c (String d tail) :: more
          else String c EmptyString :: String d tail :: more
      | other => String c EmptyString :: other
      end
  end.

(** WhiteSpace and LineTerminator of ECMAScript: TAB, LF, VT, FF, CR, SP,
    NBSP, the other space separators (Zs), LS, PS and ZWNBSP. *)
Definition white_space : list string :=
  of_bytes <$>
    [ [9]; [10]; [11]; [12]; [13]; [32]; [194; 160]; [225; 154; 128];
      [226; 128; 128]; [226; 128; 129]; [226; 128; 130]; [226; 128; 131];
      [226; 128; 132]; [226; 128; 133]; [226; 128; 134]; [226; 128; 135];
      [226; 128; 136]; [226; 128; 137]; [226; 128; 138]; [226; 128; 168];
      [226; 128; 169]; [226; 128; 175]; [226; 129; 159]; [227; 128; 128];
      [239; 187; 191] ]%N.

Definition is_white_space (point : string) : bool :=
  existsb (String.eqb point) white_space.

Fixpoint drop_while {A} (p : A -> bool) (l : list A) : list A :=
  match l with
  | [] => []
  | x :: rest => if p x then drop_while p rest else l
  end.

(** [s.trim()] *)
Definition trim (s : string) : string :=
  String.concat ""
    (rev (drop_while is_white_space (rev (drop_while is_white_space (code_points s))))).

(** A string made of white space only (the empty string included). *)
Definition blank (s : string) : Prop :=
  Forall (fun point => is_white_space point = true) (code_points s).

(** [!s] for a string: the empty string is the only falsy one. *)
Definition is_empty (s : string) : bool := String.eqb s "".

(** ** The state-and-exception monad *)

Definition M (S A : Type) : Type := S -> Outcome A * S.

Definition ret {S A} (a : A) : M S A := fun s => (Ok a, s).

Definition throw {S A} (e : Value) : M S A := fun s => (Throw e, s).

Definition bind {S A B} (m : M S A) (k : A -> M S B) : M S B :=
  fun s =>
    match m s with
    | (Ok a, s') => k a s'
    | (Throw e, s') => (Throw e, s')
    end.

Notation "'let*' x ':=' m 'in' k" := (bind m (fun x => k))
  (at level 10, x name, m at level 100, k at level 200).
Notation "m ';;' k" := (bind m (fun _ => k))
  (at level 100, k at level 200, right associativity).

(** [try { body } catch (e) { handler e }] *)
Definition try_catch {S A} (body : M S A) (handler : Value -> M S A) : M S A :=
  fun s =>
    match body s with
    | (Ok a, s') => (Ok a, s')
    | (Throw e, s') => handler e s'
    end.

(** [try { body } finally { final }]: [final] runs on both exits, and the
    outcome of [body] stands unless [final] throws. *)
Definition try_finally {S A} (body : M S A) (final : M S unit) : M S A :=
  fun s =>
    match body s with
    | (r, s') =>
        match final s' with
        | (Ok _, s'') => (r, s'')
        | (Throw e, s'') => (Throw e, s'')
        end
    end.

(** A template literal hole [${v}]. *)
Definition template {S} (v : Value) : M S string :=
  match to_string v with
  | Some text => ret text
  | None => throw cannot_convert
  end.

(** [v.key] as a step of the monad. *)
Definition property {S} (v : Value) (key : string) : M S Value :=
  fun s => (get_property v key, s).

(** ** The world outside the component *)

Inductive Level : Type := log | error.

(** One call of [console.log] or [console.error] with its arguments. *)
Record LogEntry : Type := mkLogEntry { level : Level; logged : list Value }.

(** The console (oldest entry first), the system clock and the random
    source as oracles with the number of readings taken so far, and
    [process.env]. *)
Record World : Type := mkWorld {
  console : list LogEntry;
  clock : nat -> Z;
  clock_reads : nat;
  random : nat -> Q;
  random_draws : nat;
  env : gmap string string
}.

Definition console_write (lvl : Level) (values : list Value) : M World unit :=
  fun w =>
    (Ok tt,
     mkWorld (console w ++ [mkLogEntry lvl values]) (clock w) (clock_reads w)
       (random w) (random_draws w) (env w)).

(** [Date.now()], and the reading behind [new Date()]. *)
Definition Date_now : M World Z :=
  fun w =>
    (Ok (clock w (clock_reads w)),
     mkWorld (console w) (clock w) (S (clock_reads w))
       (random w) (random_draws w) (env w)).

(** [Math.random()] *)
Definition Math_random : M World Q :=
  fun w =>
    (Ok (random w (random_draws w)),
     mkWorld (console w) (clock w) (clock_reads w)
       (random w) (S (random_draws w)) (env w)).

(** [process.env.KEY || fallback]: the fallback replaces a missing or
    empty variable. *)
Definition variable_or (key fallback : string) (w : World) : Value :=
  VStr match env w !! key with
       | Some text => if is_empty text then fallback else text
       | None => fallback
       end.

Definition env_or (key fallback : string) : M World Value :=
  fun w => (Ok (variable_or key fallback w), w).

(** What [invoke] is: a command name and its arguments to a promise,
    resolved or rejected, with effects on the world. The promise is
    settled in every case. *)
Definition Backend : Type := string -> Value -> M World Value.

(** ** mock-tauri.ts *)

Module MockTauri.

Definition file_reader : Value :=
  VObj [ ("name", VStr "file_reader");
         ("description", VStr "读取本地文件内容");
         ("input_schema",
          VObj [ ("type", VStr "object");
                 ("properties",
                  VObj [ ("path",
                          VObj [ ("type", VStr "string");
                                 ("description", VStr "文件路径") ]) ]);
                 ("required", VArr [VStr "path"]) ]) ].

Definition shell_executor : Value :=
  VObj [ ("name", VStr "shell_executor");
         ("description", VStr "在本地执行shell命令");
         ("input_schema",
          VObj [ ("type", VStr "object");
                 ("properties",
                  VObj [ ("command",
                          VObj [ ("type", VStr "string");
                                 ("description", VStr "要执行的命令") ]) ]);
                 ("required", VArr [VStr "command"]) ]) ].

Definition search_results : list Value :=
  [ VObj [ ("id", VStr "1"); ("name", VStr "example.txt");
           ("path", VStr "/home/user/example.txt"); ("size", VNum 1024) ];
    VObj [ ("id", VStr "2"); ("name", VStr "document.pdf");
           ("path", VStr "/home/user/documents/document.pdf"); ("size", VNum 2048) ] ].

(** The literal [0.7]: the double nearest to 7/10. *)
Definition threshold : Q := 3152519739159347 # 4503599627370496.

(** [random > 0.7] on doubles, which compares their exact values. *)
Definition exceeds_threshold (draw : Q) : bool := negb (Qle_bool draw threshold).

Definition invoke : Backend := fun command args =>
  console_write log [VStr ("Mock Tauri invoke: " +:+ command); args] ;;
  if String.eqb command "greet" then
    let* name := template (optional_property args "name") in
    ret (VStr ("Hello, " +:+ name +:+ "! You've been greeted from Mock Rust!"))
  else if String.eqb command "init_mcp" then
    ret (VStr "MCP initialized successfully")
  else if String.eqb command "list_mcp_tools" then
    ret (VArr [file_reader; shell_executor])
  else if String.eqb command "process_user_message" then
    let* draw := Math_random in
    if exceeds_threshold draw then
      ret (VStr "PENDING_APPROVAL")
    else
      let* message := template (optional_property args "message") in
      ret (VStr ("Processed message: " +:+ quote +:+ message +:+ quote))
  else if String.eqb command "approve_tool_call" then
    let* toolName := template (optional_property args "toolName") in
    ret (VStr ("Tool call " +:+ toolName +:+ " approved and executed"))
  else if String.eqb command "search_local_files" then
    ret (VArr search_results)
  else if String.eqb command "refresh_file_index" then
    ret (VStr "File index refreshed successfully")
  else
    ret (VStr ("Mock response for command: " +:+ command)).

(** [listen(event, handler)]: one console line; the function it resolves
    with, the unlisten function, does nothing. *)
Definition listen (event : string) (handler : Value -> M World unit)
    : M World (M World unit) :=
  console_write log [VStr ("Listening for event: " +:+ event)] ;;
  ret (ret tt).

(** [emit(event, payload)] *)
Definition emit (event : string) (payload : Value) : M World unit :=
  console_write log [VStr ("Emitted event: " +:+ event); payload].

End MockTauri.

(** ** The App component *)

Inductive Role : Type := user | assistant.

Inductive Status : Type := pending | executing | completed | failed.

Record Message : Type := mkMessage {
  msg_id : string;
  content : string;
  role : Role;
  timestamp : Z
}.

Record OperationPreview : Type := mkOperationPreview {
  op_id : string;
  title : string;
  op_description : string;
  status : Status
}.

Record PendingApproval : Type := mkPendingApproval {
  pa_id : string;
  toolName : string;
  arguments : Value;
  description : string
}.

(** The six [useState] cells of [App]. *)
Record State : Type := mkState {
  messages : list Message;
  inputValue : string;
  isLoading : bool;
  operationPreviews : list OperationPreview;
  pendingApproval : option PendingApproval;
  mcpServers : list string
}.

(** The component at rest: its store, the world, the commands handed to
    [invoke] so far (oldest first), and whether the form event being
    handled had its default action prevented. *)
Record Sys : Type := mkSys {
  store : State;
  world : World;
  invoked : list (string * Value);
  defaultPrevented : bool
}.

(** The state of the first render; [mounted] is the clock reading of the
    greeting. *)
Definition initial (mounted : Z) : State :=
  mkState
    [mkMessage "1" "你好！我是Local Pilot助手，我可以帮助你与本地系统交互。" assistant mounted]
    ""
    false
    [ mkOperationPreview "op1" "文件读取" "读取本地文件内容" pending;
      mkOperationPreview "op2" "命令执行" "执行本地shell命令" pending ]
    None
    ["Filesystem"; "SQLite"].

Definition update_store (f : State -> State) : M Sys unit :=
  fun sys => (Ok tt, mkSys (f (store sys)) (world sys) (invoked sys) (defaultPrevented sys)).

(** [setMessages(prev => f(prev))] *)
Definition setMessages (f : list Message -> list Message) : M Sys unit :=
  update_store (fun st =>
    mkState (f (messages st)) (inputValue st) (isLoading st)
      (operationPreviews st) (pendingApproval st) (mcpServers st)).

Definition setInputValue (text : string) : M Sys unit :=
  update_store (fun st =>
    mkState (messages st) text (isLoading st)
      (operationPreviews st) (pendingApproval st) (mcpServers st)).

Definition setIsLoading (b : bool) : M Sys unit :=
  update_store (fun st =>
    mkState (messages st) (inputValue st) b
      (operationPreviews st) (pendingApproval st) (mcpServers st)).

(** [setOperationPreviews(prev => f(prev))] *)
Definition setOperationPreviews
    (f : list OperationPreview -> list OperationPreview) : M Sys unit :=
  update_store (fun st =>
    mkState (messages st) (inputValue st) (isLoading st)
      (f (operationPreviews st)) (pendingApproval st) (mcpServers st)).

Definition setPendingApproval (p : option PendingApproval) : M Sys unit :=
  update_store (fun st =>
    mkState (messages st) (inputValue st) (isLoading st)
      (operationPreviews st) p (mcpServers st)).

(** [e.preventDefault()] *)
Definition preventDefault : M Sys unit :=
  fun sys => (Ok tt, mkSys (store sys) (world sys) (invoked sys) true).

(** A computation on the world, run inside the component. *)
Definition lift {A} (m : M World A) : M Sys A :=
  fun sys =>
    match m (world sys) with
    | (r, w) => (r, mkSys (store sys) w (invoked sys) (defaultPrevented sys))
    end.

Definition with_status (st : Status) (op : OperationPreview) : OperationPreview :=
  mkOperationPreview (op_id op) (title op) (op_description op) st.

Definition updateOperationStatus (id : string) (st : Status) : M Sys unit :=
  setOperationPreviews (fun prev =>
    (fun op => if String.eqb (op_id op) id then with_status st op else op) <$> prev).

(** [if (operationPreviews.length > 0)
       updateOperationStatus(operationPreviews[0].id, st)],
    on the list of the render the handler belongs to. *)
Definition update_first_operation (snap : State) (st : Status) : M Sys unit :=
  match operationPreviews snap with
  | op :: _ => updateOperationStatus (op_id op) st
  | [] => ret tt
  end.

Definition append_message (m : Message) : M Sys unit :=
  setMessages (fun prev => prev ++ [m]).

Definition dangerous_operation (id : string) : PendingApproval :=
  mkPendingApproval id "dangerous_operation"
    (VObj [("path", VStr "/example/path")])
    "执行潜在危险操作: 删除 /example/path".

Section Handlers.

(** The [invoke] the module was loaded with: the Tauri bridge, or the
    mock. *)
Variable invoke : Backend.

(** [await invoke(command, args)] *)
Definition call (command : string) (args : Value) : M Sys Value :=
  fun sys =>
    match invoke command args (world sys) with
    | (r, w) =>
        (r, mkSys (store sys) w (invoked sys ++ [(command, args)]) (defaultPrevented sys))
    end.

Definition handleApproveOperation (snap : State) : M Sys unit :=
  match pendingApproval snap with
  | None => ret tt
  | Some p =>
      try_catch
        (let* result :=
           call "approve_tool_call"
             (VObj [ ("toolName", VStr (toolName p));
                     ("arguments", stringified (arguments p)) ]) in
         let* now := lift Date_now in
         let* text := template result in
         let* stamp := lift Date_now in
         append_message
           (mkMessage (Z_to_string now) ("操作结果: " +:+ text) assistant stamp) ;;
         setPendingApproval None ;;
         update_first_operation snap completed)
        (fun err =>
         lift (console_write error [VStr "Error approving operation:"; err]) ;;
         let* now := lift Date_now in
         let* message := property err "message" in
         let* text := template message in
         let* stamp := lift Date_now in
         append_message
           (mkMessage (Z_to_string now) ("批准操作失败: " +:+ text) assistant stamp) ;;
         update_first_operation snap failed)
  end.

Definition handleRejectOperation (snap : State) : M Sys unit :=
  let* now := lift Date_now in
  let what :=
    match pendingApproval snap with
    | Some p => if is_empty (description p) then "未知操作" else description p
    | None => "未知操作"
    end in
  let* stamp := lift Date_now in
  append_message (mkMessage (Z_to_string now) ("操作已拒绝: " +:+ what) assistant stamp) ;;
  setPendingApproval None ;;
  update_first_operation snap failed.

Definition handleSubmit (snap : State) : M Sys unit :=
  preventDefault ;;
  if is_empty (trim (inputValue snap)) || isLoading snap then ret tt
  else
    let* now := lift Date_now in
    let* stamp := lift Date_now in
    append_message (mkMessage (Z_to_string now) (inputValue snap) user stamp) ;;
    setInputValue "" ;;
    setIsLoading true ;;
    try_finally
      (try_catch
         (update_first_operation snap executing ;;
          let* apiKey := lift (env_or "ANTHROPIC_API_KEY" "") in
          let* apiBase := lift (env_or "API_BASE" "https://api.anthropic.com") in
          let* modelName := lift (env_or "MODEL_NAME" "claude-3-5-sonnet-20241022") in
          let* result :=
            call "process_user_message"
              (VObj [ ("message", VStr (inputValue snap));
                      ("apiKey", apiKey);
                      ("apiBase", apiBase);
                      ("modelName", modelName) ]) in
          if strict_equals_string result "PENDING_APPROVAL" then
            let* now := lift Date_now in
            setPendingApproval (Some (dangerous_operation (Z_to_string now)))
          else
            let* now := lift Date_now in
            let reply := match result with VStr text => text | _ => "操作已完成" end in
            let* stamp := lift Date_now in
            append_message
              (mkMessage (Z_to_string (now + 1)) ("AI回复: " +:+ reply) assistant stamp) ;;
            update_first_operation snap completed)
         (fun err =>
          lift (console_write error [VStr "Error processing message:"; err]) ;;
          let* now := lift Date_now in
          let* message := property err "message" in
          let* text := template message in
          let* stamp := lift Date_now in
          append_message
            (mkMessage (Z_to_string (now + 1)) ("错误: " +:+ text) assistant stamp) ;;
          update_first_operation snap failed))
      (setIsLoading false).

(** What the operator can do: submit the form, press one of the two
    buttons of the confirmation card, or edit the input. *)
Inductive Event : Type :=
| Submit
| Approve
| Reject
| Change (text : string).

(** A handler of the latest render is run to its end on the current
    store; what it throws is dropped (the rejected promise of an event
    handler has no listener). A form event starts with its default
    action not prevented. *)
Definition step (ev : Event) (sys : Sys) : Sys :=
  match ev with
  | Submit =>
      (handleSubmit (store sys)
         (mkSys (store sys) (world sys) (invoked sys) false)).2
  | Approve => (handleApproveOperation (store sys) sys).2
  | Reject => (handleRejectOperation (store sys) sys).2
  | Change text => (setInputValue text sys).2
  end.

Definition run (events : list Event) (sys : Sys) : Sys :=
  fold_left (fun s ev => step ev s) events sys.

End Handlers.

(** ** The search contract, in the words of the specification

    "Search is a case-insensitive substring match over name and path."
    These definitions follow that sentence; they are what the mock is
    compared with, not a part of it. *)

Definition lower_case (c : ascii) : ascii :=
  let n := N_of_ascii c in
  if (65 <=? n)%N && (n <=? 90)%N then ascii_of_N (n + 32) else c.

Fixpoint toLowerCase (s : string) : string :=
  match s with
  | EmptyString => EmptyString
  | String c rest => String (lower_case c) (toLowerCase rest)
  end.

Fixpoint includes (needle hay : string) : bool :=
  String.prefix needle hay ||
  match hay with
  | EmptyString => false
  | String _ rest => includes needle rest
  end.

Definition text_of (v : Value) : string :=
  match v with VStr s => s | _ => "" end.

Definition spec_matches (query : string) (entry : Value) : bool :=
  let q := toLowerCase query in
  includes q (toLowerCase (text_of (optional_property entry "name"))) ||
  includes q (toLowerCase (text_of (optional_property entry "path"))).

Definition spec_search (index : list Value) (query : string) : list Value :=
  List.filter (spec_matches query) index.

(** ** Worlds, stores and backends used as examples *)

(** [n] more readings of the clock taken. *)
Definition ticked (n : nat) (w : World) : World :=
  mkWorld (console w) (clock w) (n + clock_reads w) (random w) (random_draws w) (env w).

(** The world after [values] went to the console at level [lvl]. *)
Definition logging (lvl : Level) (values : list Value) (w : World) : World :=
  mkWorld (console w ++ [mkLogEntry lvl values]) (clock w) (clock_reads w)
    (random w) (random_draws w) (env w).

(** The reading the clock gives [n] readings from now. *)
Definition reading (n : nat) (w : World) : Z := clock w (n + clock_reads w).

(** The argument record [handleSubmit] hands to [process_user_message]. *)
Definition message_args (text : string) (w : World) : Value :=
  VObj [ ("message", VStr text);
         ("apiKey", variable_or "ANTHROPIC_API_KEY" "" w);
         ("apiBase", variable_or "API_BASE" "https://api.anthropic.com" w);
         ("modelName", variable_or "MODEL_NAME" "claude-3-5-sonnet-20241022" w) ].

(** The argument record [handleApproveOperation] hands to
    [approve_tool_call]. *)
Definition approval_args (p : PendingApproval) : Value :=
  VObj [ ("toolName", VStr (toolName p)); ("arguments", stringified (arguments p)) ].

(** A silent world: the clock starts at 1000 and gains one per reading,
    every random draw is [draw], and the only variable set is the API key. *)
Definition quiet (draw : Q) (key : string) : World :=
  mkWorld [] (fun n => 1000 + Z.of_nat n)%Z 0 (fun _ => draw) 0
    (<["ANTHROPIC_API_KEY" := key]> ∅).

(** The same world with draws that alternate between 1/2 and 3/4. *)
Definition alternating : World :=
  mkWorld [] (fun n => 1000 + Z.of_nat n)%Z 0
    (fun n => if Nat.even n then 1 # 2 else 3 # 4) 0
    (<["ANTHROPIC_API_KEY" := "sk-ant"]> ∅).

(** The first render with [text] typed into the input. *)
Definition typed (text : string) : State :=
  mkState (messages (initial 0)) text false (operationPreviews (initial 0)) None
    (mcpServers (initial 0)).

(** The same with a request awaiting the operator's decision. *)
Definition awaiting (text : string) (p : PendingApproval) : State :=
  mkState (messages (initial 0)) text false (operationPreviews (initial 0)) (Some p)
    (mcpServers (initial 0)).

Definition at_rest (st : State) (w : World) : Sys := mkSys st w [] false.

(** An [invoke] whose promise is always rejected with [e]. *)
Definition rejecting (e : Value) : Backend := fun _ _ => throw e.

(** A request is pending, the clock reads 2000, the operator has typed
    again, and the next draw of the mock exceeds its threshold. *)
Definition second_submission : Sys :=
  mkSys (awaiting "again" (dangerous_operation "1000"))
    (ticked 1000 (quiet (3 # 4) "sk-ant")) [] false.

(** The four fields of a search result. *)
Definition is_file_info (entry : Value) : Prop :=
  exists (id name path : string) (size : Z),
    entry = VObj [ ("id", VStr id); ("name", VStr name);
                   ("path", VStr path); ("size", VNum size) ].

(** ** The rest of the component *)

(** The previews after [updateOperationStatus(id, st)]. *)
Definition marked (id : string) (st : Status) (ops : list OperationPreview)
    : list OperationPreview :=
  (fun op => if String.eqb (op_id op) id then with_status st op else op) <$> ops.

(** The id [operationPreviews[0].id] the handlers pass on; the empty list
    has none, and then nothing is updated. *)
Definition first_id (ops : list OperationPreview) : string :=
  match ops with
  | op :: _ => op_id op
  | [] => ""
  end.

Section Mount.

Variable invoke : Backend.

(** The effect of the first render:
    [try { await invoke("init_mcp"); console.log(...) }
     catch (error) { console.error(..., error) }]. *)
Definition initMcp : M Sys unit :=
  try_catch
    (call invoke "init_mcp" VUndefined ;;
     lift (console_write log [VStr "MCP initialized"]))
    (fun err => lift (console_write error [VStr "Failed to initialize MCP:"; err])).

End Mount.

(** What the confirmation card shows of a pending approval: the tool
    name, the description, and after the label the text
    [JSON.stringify(pendingApproval.arguments)]. *)
Record ConfirmationCard : Type := mkConfirmationCard {
  shown_tool : string;
  shown_description : string;
  shown_parameters : Value
}.

(** [{pendingApproval && (...)}]: the card is rendered while a request is
    pending. *)
Definition confirmation_card (st : State) : option ConfirmationCard :=
  (fun p => mkConfirmationCard (toolName p) (description p) (stringified (arguments p)))
    <$> pendingApproval st.

(** [disabled={isLoading || !inputValue.trim()}] of the submit button. *)
Definition submit_disabled (st : State) : bool :=
  isLoading st || is_empty (trim (inputValue st)).

(** Commands the component hands to [invoke] from its handlers. *)
Definition handler_command (c : string * Value) : Prop :=
  c.1 = "process_user_message" \/ c.1 = "approve_tool_call".

(** The previews are those of [ops] with, possibly, one status given to
    every preview that has the id of the first. *)
Definition restatused (ops ops' : list OperationPreview) : Prop :=
  ops' = ops \/ exists st, ops' = marked (first_id ops) st ops.

(** An object that cannot be converted to text: its own [toString] is
    not a function. *)
Definition unconvertible : Value := VObj [("toString", VNum 1)].

(** An [invoke] whose promise is always resolved with [v]. *)
Definition resolving (v : Value) : Backend := fun _ _ => ret v.

(** ** Running the handlers symbolically *)

Ltac unfold_monad :=
  unfold try_finally, try_catch, bind, lift, call, property, template, throw,
    Date_now, Math_random, console_write, env_or, variable_or,
    update_first_operation, updateOperationStatus, append_message,
    setMessages, setInputValue, setIsLoading, setOperationPreviews, setPendingApproval,
    preventDefault, update_store, ret in *.

(** Case analysis on whatever the code branches on next. *)
Ltac case_split :=
  repeat match goal with
         | |- context [match ?x with _ => _ end] =>
             lazymatch x with
             | context [match _ with _ => _ end] => fail
             | _ => destruct x eqn:?; cbn
             end
         end.

Ltac run_handler :=
  unfold handleSubmit, handleApproveOperation, handleRejectOperation; unfold_monad; cbn.

(** The same with the configuration values left folded. *)
Ltac unfold_monad_folded :=
  unfold try_finally, try_catch, bind, lift, call, property, template, throw,
    Date_now, Math_random, console_write, env_or,
    update_first_operation, updateOperationStatus, append_message,
    setMessages, setInputValue, setIsLoading, setOperationPreviews, setPendingApproval,
    preventDefault, update_store, ret in *.

Ltac run_handler_folded :=
  unfold handleSubmit, handleApproveOperation, handleRejectOperation;
  unfold_monad_folded; cbn.

(** * Properties *)

(** ** White space *)

Lemma drop_while_all {A} (p : A -> bool) (l : list A) :
  Forall (fun x => p x = true) l -> drop_while p l = [].
Proof.
  induction 1 as [|x l Hx _ IH]; simpl; [reflexivity|].
  rewrite Hx. exact IH.
Qed.

Lemma trim_blank (s : string) : blank s -> trim s = "".
Proof.
  intros Hs. unfold trim. rewrite (drop_while_all _ _ Hs). reflexivity.
Qed.

(** ** handleSubmit: the guard *)

(** C9. When the input is white space only, or a submission is still
    loading, [handleSubmit] returns at once: nothing is handed to
    [invoke], and the store (messages, pending approval and the rest) and
    the world (console, clock) are as before. The only effect is
    [e.preventDefault()] on the form event. This holds for the handler of
    any render, on any store. *)
Theorem handleSubmit_blank_or_loading (invoke : Backend) (snap : State) (sys : Sys) :
  blank (inputValue snap) \/ isLoading snap = true ->
  handleSubmit invoke snap sys
  = (Ok tt, mkSys (store sys) (world sys) (invoked sys) true).
Proof.
  intros Hguard. unfold handleSubmit, bind, preventDefault.
  assert (Hif : is_empty (trim (inputValue snap)) || isLoading snap = true).
  { destruct Hguard as [Hb | Hl].
    - rewrite (trim_blank _ Hb). reflexivity.
    - rewrite Hl. apply orb_true_r. }
  rewrite Hif. reflexivity.
Qed.

(** Three blanks, one of them a no-break space, typed into the first
    render. *)
Lemma handleSubmit_blank_or_loading_witness :
  let text := " " +:+ of_bytes [194; 160; 9]%N in
  let sys := at_rest (typed text) (quiet (3 # 4) "sk-ant") in
  handleSubmit MockTauri.invoke (typed text) sys
  = (Ok tt, mkSys (store sys) (world sys) (invoked sys) true).
Proof.
  apply handleSubmit_blank_or_loading. left. repeat constructor.
Defined.

(** ** handleRejectOperation *)

(** C10. Rejecting runs no backend command: [handleRejectOperation] does
    not even take [invoke]; the list of invoked commands and the console
    are as before (the world only had its clock read twice). It appends
    exactly one message, from the assistant, and clears the pending
    approval. The first operation preview, if there is one, has the
    status [failed] afterwards, with its id, title and description as
    before; so has every preview that shares its id, and every other
    preview is as before. The input, the loading flag and the list of
    servers are untouched. *)
Theorem handleRejectOperation_local (sys : Sys) :
  let '(r, sys') := handleRejectOperation (store sys) sys in
  r = Ok tt /\
  invoked sys' = invoked sys /\
  world sys' = ticked 2 (world sys) /\
  messages (store sys')
  = messages (store sys) ++
    [ mkMessage (Z_to_string (reading 0 (world sys)))
        ("操作已拒绝: " +:+
         match pendingApproval (store sys) with
         | Some p => if is_empty (description p) then "未知操作" else description p
         | None => "未知操作"
         end)
        assistant (reading 1 (world sys)) ] /\
  pendingApproval (store sys') = None /\
  head (operationPreviews (store sys'))
  = (fun op => mkOperationPreview (op_id op) (title op) (op_description op) failed)
      <$> head (operationPreviews (store sys)) /\
  length (operationPreviews (store sys')) = length (operationPreviews (store sys)) /\
  (forall (i : nat) (op : OperationPreview),
     operationPreviews (store sys) !! i = Some op ->
     operationPreviews (store sys') !! i
     = Some (mkOperationPreview (op_id op) (title op) (op_description op)
               (if String.eqb (op_id op) (first_id (operationPreviews (store sys)))
                then failed else status op))) /\
  inputValue (store sys') = inputValue (store sys) /\
  isLoading (store sys') = isLoading (store sys) /\
  mcpServers (store sys') = mcpServers (store sys).
Proof.
  run_handler.
  destruct (operationPreviews (store sys)) as [|first rest] eqn:Hops; cbn;
    rewrite ?Hops, ?String.eqb_refl; cbn; rewrite ?length_fmap;
    repeat split; eauto.
  - intros i op Hop. rewrite lookup_nil in Hop. discriminate.
  - intros [|i] op Hop; cbn in Hop |- *.
    + injection Hop as <-. rewrite String.eqb_refl. reflexivity.
    + clear Hops. revert i Hop.
      induction rest as [|next rest IH]; intros i Hop; [destruct i; discriminate|].
      destruct i as [|i]; cbn in Hop |- *; [|exact (IH i Hop)].
      injection Hop as <-.
      destruct (String.eqb (op_id next) (op_id first)); [reflexivity|].
      destruct next; reflexivity.
Qed.

(** ** The pending approval *)

(** A submission that passes the guard and that the backend answers with
    the sentinel sets a fresh request, whatever was pending before. *)
Lemma handleSubmit_sets_request (invoke : Backend) (sys : Sys) (w' : World) :
  is_empty (trim (inputValue (store sys))) = false ->
  isLoading (store sys) = false ->
  invoke "process_user_message"
    (message_args (inputValue (store sys)) (world sys)) (ticked 2 (world sys))
  = (Ok (VStr "PENDING_APPROVAL"), w') ->
  pendingApproval (store (step invoke Submit sys))
  = Some (dangerous_operation (Z_to_string (reading 0 w'))).
Proof.
  intros Ht Hl Hi. cbn. run_handler. rewrite Ht, Hl. cbn.
  unfold message_args, variable_or, ticked in Hi. cbn in Hi.
  destruct (operationPreviews (store sys)); cbn; rewrite Hi; reflexivity.
Qed.

(** C4, as stated, fails: a request can come into existence while one is
    pending. With the request made at 1000 pending, a submission that the
    mock answers with the sentinel puts the request made at 2002 in its
    place. *)
Lemma second_request_while_pending :
  pendingApproval (store second_submission) = Some (dangerous_operation "1000") /\
  pendingApproval (store (step MockTauri.invoke Submit second_submission))
  = Some (dangerous_operation "2002") /\
  dangerous_operation "2002" <> dangerous_operation "1000".
Proof.
  split; [reflexivity|]. split; [vm_compute; reflexivity|]. discriminate.
Qed.

(** C4, amended. The store holds no request or one. Rejecting clears the
    pending request, editing the input leaves it, accepting leaves or
    clears it, and only a submission can put a request made by
    [handleSubmit] in its place. Nothing refuses a submission because a
    request is pending: a submission that passes the guard and that the
    backend answers with the sentinel while a request is pending replaces
    that request, whichever it is, by a fresh one with the clock reading
    as id; there are never two at once. *)
Theorem pendingApproval_after_step (invoke : Backend) (ev : Event) (sys : Sys) :
  let before := pendingApproval (store sys) in
  let after := pendingApproval (store (step invoke ev sys)) in
  length (option_list after) <= 1 /\
  (after = before \/ after = None \/
   (ev = Submit /\ exists id, after = Some (dangerous_operation id))) /\
  (ev = Reject -> after = None) /\
  (ev = Approve -> after = before \/ after = None) /\
  (forall text : string, ev = Change text -> after = before) /\
  (forall (p : PendingApproval) (w' : World),
     ev = Submit ->
     before = Some p ->
     is_empty (trim (inputValue (store sys))) = false ->
     isLoading (store sys) = false ->
     invoke "process_user_message"
       (message_args (inputValue (store sys)) (world sys)) (ticked 2 (world sys))
     = (Ok (VStr "PENDING_APPROVAL"), w') ->
     after = Some (dangerous_operation (Z_to_string (reading 0 w')))).
Proof.
  cbn zeta. split; [destruct (pendingApproval _); cbn; lia|].
  split; [|split; [|split; [|split]]].
  - destruct ev; cbn.
    + run_handler_folded. case_split; eauto 6.
    + run_handler_folded. case_split; eauto.
    + run_handler_folded. case_split; eauto.
    + auto.
  - intros ->. cbn. run_handler_folded. case_split; reflexivity.
  - intros ->. cbn. run_handler_folded. case_split; auto.
  - intros text ->. reflexivity.
  - intros p w' -> _ Ht Hl Hi. apply handleSubmit_sets_request; assumption.
Qed.

(** The request made at 1000 is pending and the mock answers the next
    submission with the sentinel: the request made at 2002 replaces it. *)
Lemma pendingApproval_after_step_witness :
  pendingApproval (store second_submission) = Some (dangerous_operation "1000") /\
  pendingApproval (store (step MockTauri.invoke Submit second_submission))
  = Some (dangerous_operation "2002").
Proof.
  split; [reflexivity|].
  exact (proj2 (proj2 (proj2 (proj2 (proj2
           (pendingApproval_after_step MockTauri.invoke Submit second_submission)))))
           (dangerous_operation "1000")
           (MockTauri.invoke "process_user_message"
              (message_args "again" (world second_submission))
              (ticked 2 (world second_submission))).2
           eq_refl eq_refl eq_refl eq_refl eq_refl).
Defined.

(** Rejecting clears the pending approval and leaves the loading flag. *)
Lemma handleRejectOperation_clears (invoke : Backend) (sys : Sys) :
  pendingApproval (store (step invoke Reject sys)) = None /\
  isLoading (store (step invoke Reject sys)) = isLoading (store sys).
Proof.
  cbn. run_handler. case_split; auto.
Qed.

(** C5. With a request pending, an accept whose [approve_tool_call]
    resolves with a result that converts to text, and a reject, both
    leave no pending approval; and after either decision a submission of
    non-blank text that the backend answers with the sentinel creates a
    request again. *)
Theorem approval_cleared_by_decision
    (invoke : Backend) (sys : Sys) (p : PendingApproval)
    (result : Value) (text : string) (w' : World) :
  pendingApproval (store sys) = Some p ->
  invoke "approve_tool_call" (approval_args p) (world sys) = (Ok result, w') ->
  to_string result = Some text ->
  pendingApproval (store (step invoke Approve sys)) = None /\
  pendingApproval (store (step invoke Reject sys)) = None /\
  forall (decision : Event) (typed_text : string) (w'' : World),
    decision = Approve \/ decision = Reject ->
    let decided := step invoke (Change typed_text) (step invoke decision sys) in
    is_empty (trim typed_text) = false ->
    isLoading (store sys) = false ->
    invoke "process_user_message"
      (message_args typed_text (world decided)) (ticked 2 (world decided))
    = (Ok (VStr "PENDING_APPROVAL"), w'') ->
    pendingApproval (store (step invoke Submit decided))
    = Some (dangerous_operation (Z_to_string (reading 0 w''))).
Proof.
  intros Hp Hi Hs.
  assert (Happrove : pendingApproval (store (step invoke Approve sys)) = None /\
                     isLoading (store (step invoke Approve sys)) = isLoading (store sys)).
  { cbn. run_handler. rewrite Hp. cbn.
    unfold approval_args in Hi. rewrite Hi. cbn. rewrite Hs. cbn.
    destruct (operationPreviews (store sys)); cbn; auto. }
  assert (Hreject : pendingApproval (store (step invoke Reject sys)) = None /\
                    isLoading (store (step invoke Reject sys)) = isLoading (store sys)).
  { apply handleRejectOperation_clears. }
  split; [apply Happrove|]. split; [apply Hreject|].
  intros decision typed_text w'' Hd decided Ht Hl Hcall.
  apply handleSubmit_sets_request.
  - exact Ht.
  - subst decided. destruct Hd as [-> | ->].
    + destruct Happrove as [_ <-] in Hl. exact Hl.
    + destruct Hreject as [_ <-] in Hl. exact Hl.
  - exact Hcall.
Qed.

(** The mock as backend, the request made at 1000 pending. *)
Lemma approval_cleared_by_decision_witness :
  let sys := at_rest (awaiting "" (dangerous_operation "1000")) (quiet (3 # 4) "sk-ant") in
  pendingApproval (store (step MockTauri.invoke Approve sys)) = None /\
  pendingApproval (store (step MockTauri.invoke Reject sys)) = None.
Proof.
  intros sys.
  pose proof (approval_cleared_by_decision MockTauri.invoke sys
                (dangerous_operation "1000")
                (VStr "Tool call dangerous_operation approved and executed")
                "Tool call dangerous_operation approved and executed"
                (logging log [VStr "Mock Tauri invoke: approve_tool_call";
                              approval_args (dangerous_operation "1000")] (world sys))
                eq_refl eq_refl eq_refl) as H.
  split; apply H.
Defined.

(** ** The mock backend *)

(** What the mock does with a command is preceded by one line on the
    console: the command and its whole argument record. *)
Lemma invoke_logs_arguments (command : string) (args : Value) (w : World) :
  exists more,
    console (MockTauri.invoke command args w).2
    = console w ++ [mkLogEntry log [VStr ("Mock Tauri invoke: " +:+ command); args]] ++ more.
Proof.
  exists []. unfold MockTauri.invoke. unfold_monad. cbn.
  case_split; rewrite ?app_nil_r; reflexivity.
Qed.

(** C1, as stated, fails: with the request for [dangerous_operation] on
    [/example/path] pending, [approve_tool_call] for another tool with
    another payload is not refused: it resolves with an execution
    result. *)
Lemma approve_tool_call_accepts_mismatch :
  let p := dangerous_operation "1000" in
  let other :=
    VObj [ ("toolName", VStr "shell_executor"); ("arguments", VStr "{}") ] in
  other <> approval_args p /\
  (MockTauri.invoke "approve_tool_call" other (quiet (1 # 2) "sk-ant")).1
  = Ok (VStr "Tool call shell_executor approved and executed").
Proof.
  split; [discriminate | reflexivity].
Qed.

(** C1, amended. The mock keeps no pending request and compares nothing:
    for every argument record whose [toolName] converts to text,
    whatever the argument payload, [approve_tool_call] resolves with
    the text naming that tool, and its only effect is the console line. *)
Theorem approve_tool_call_always_executes (args : Value) (w : World) (name : string) :
  to_string (optional_property args "toolName") = Some name ->
  MockTauri.invoke "approve_tool_call" args w
  = (Ok (VStr ("Tool call " +:+ name +:+ " approved and executed")),
     logging log [VStr "Mock Tauri invoke: approve_tool_call"; args] w).
Proof.
  intros Hname. unfold MockTauri.invoke. unfold_monad. cbn. rewrite Hname. reflexivity.
Qed.

Lemma approve_tool_call_always_executes_witness :
  let args := VObj [ ("toolName", VStr "file_reader"); ("arguments", VNum 7) ] in
  let w := quiet (1 # 2) "sk-ant" in
  MockTauri.invoke "approve_tool_call" args w
  = (Ok (VStr "Tool call file_reader approved and executed"),
     logging log [VStr "Mock Tauri invoke: approve_tool_call"; args] w).
Proof.
  intros args w. apply (approve_tool_call_always_executes args w "file_reader").
  reflexivity.
Defined.

(** The front-end never sends anything but the pending request itself. *)
Lemma handleApproveOperation_sends_pending
    (invoke : Backend) (snap : State) (sys : Sys) (p : PendingApproval) :
  pendingApproval snap = Some p ->
  invoked (handleApproveOperation invoke snap sys).2
  = invoked sys ++ [("approve_tool_call", approval_args p)].
Proof.
  intros Hp. run_handler. rewrite Hp. cbn. case_split; reflexivity.
Qed.

(** What a submission that passes the guard leaves on the console when
    the mock is the backend: the arguments of [process_user_message], the
    API key among them. *)
Lemma submit_console (sys : Sys) :
  is_empty (trim (inputValue (store sys))) = false ->
  isLoading (store sys) = false ->
  console (world (step MockTauri.invoke Submit sys))
  = console (world sys) ++
    [mkLogEntry log [VStr "Mock Tauri invoke: process_user_message";
                     message_args (inputValue (store sys)) (world sys)]].
Proof.
  intros Ht Hl. cbn. run_handler. rewrite Ht, Hl. cbn.
  unfold MockTauri.invoke, message_args, variable_or. unfold_monad. cbn.
  case_split; reflexivity.
Qed.

(** C2 fails on the mock: the console after one submission differs with
    the API key. [invoke] logs the argument record it is called with, and
    [handleSubmit] puts the key into that record. *)
Theorem apiKey_reaches_console :
  let console_with (key : string) :=
    console (world (step MockTauri.invoke Submit
                      (at_rest (typed "hello") (quiet (1 # 2) key)))) in
  console_with "sk-ant-A" <> console_with "sk-ant-B" /\
  console_with "sk-ant-A"
  = [mkLogEntry log
       [VStr "Mock Tauri invoke: process_user_message";
        VObj [ ("message", VStr "hello");
               ("apiKey", VStr "sk-ant-A");
               ("apiBase", VStr "https://api.anthropic.com");
               ("modelName", VStr "claude-3-5-sonnet-20241022") ]]].
Proof.
  intros console_with. unfold console_with.
  rewrite !submit_console by reflexivity. split.
  - vm_compute. discriminate.
  - vm_compute. reflexivity.
Qed.

Lemma exceeds_threshold_spec (draw : Q) :
  MockTauri.exceeds_threshold draw = true <-> (MockTauri.threshold < draw)%Q.
Proof.
  unfold MockTauri.exceeds_threshold. rewrite negb_true_iff.
  rewrite <- not_true_iff_false, Qle_bool_iff. split.
  - apply Qnot_le_lt.
  - apply Qlt_not_le.
Qed.

(** C3, as stated, fails: two calls in a row with the same message and
    configuration, the mock holding no state of its own, are answered
    once with the processed text and once with the sentinel; the draws
    were 1/2 and 3/4. *)
Lemma process_user_message_by_chance :
  let args := message_args "hello" alternating in
  let first := MockTauri.invoke "process_user_message" args alternating in
  let second := MockTauri.invoke "process_user_message" args first.2 in
  first.1 = Ok (VStr ("Processed message: " +:+ quote +:+ "hello" +:+ quote)) /\
  second.1 = Ok (VStr "PENDING_APPROVAL") /\
  env first.2 = env alternating.
Proof.
  repeat split; vm_compute; reflexivity.
Qed.

(** C3, amended. The answer of the mock is a function of the random draw
    and of the message alone: the sentinel is returned exactly when the
    draw exceeds 0.7, whatever the message, the credentials and the rest
    of the arguments; and two calls with the same draw and the same
    message have the same outcome. *)
Theorem sentinel_decided_by_draw (args : Value) (w : World) :
  let draw := random w (random_draws w) in
  ((MockTauri.invoke "process_user_message" args w).1 = Ok (VStr "PENDING_APPROVAL")
   <-> (MockTauri.threshold < draw)%Q) /\
  forall (args' : Value) (w' : World),
    random w' (random_draws w') = draw ->
    optional_property args' "message" = optional_property args "message" ->
    (MockTauri.invoke "process_user_message" args' w').1
    = (MockTauri.invoke "process_user_message" args w).1.
Proof.
  cbn zeta. split.
  - rewrite <- exceeds_threshold_spec.
    unfold MockTauri.invoke. unfold_monad. cbn.
    destruct (MockTauri.exceeds_threshold _); cbn; [tauto|].
    destruct (to_string _); cbn; split; discriminate.
  - intros args' w' Hdraw Hmsg.
    unfold MockTauri.invoke. unfold_monad. cbn. rewrite Hdraw, Hmsg.
    case_split; reflexivity.
Qed.

(** C7, as stated, fails: asked for [invoice], the mock returns its two
    entries, neither of which has [invoice] in its name or path; the
    matching entries of no index are these. *)
Lemma search_returns_entries_that_do_not_match :
  (MockTauri.invoke "search_local_files" (VObj [("query", VStr "invoice")])
     (quiet (1 # 2) "sk-ant")).1
  = Ok (VArr MockTauri.search_results) /\
  length MockTauri.search_results = 2%nat /\
  Forall (fun entry => spec_matches "invoice" entry = false) MockTauri.search_results /\
  forall index : list Value, spec_search index "invoice" <> MockTauri.search_results.
Proof.
  split; [reflexivity|]. split; [reflexivity|]. split; [repeat constructor|].
  intros index Heq.
  assert (Hin : In (VObj [ ("id", VStr "1"); ("name", VStr "example.txt");
                           ("path", VStr "/home/user/example.txt"); ("size", VNum 1024) ])
                   (spec_search index "invoice")).
  { rewrite Heq. left. reflexivity. }
  apply filter_In in Hin as [_ Hmatch]. vm_compute in Hmatch. discriminate.
Qed.

(** C7, amended. For every query, indeed for every argument record,
    [search_local_files] never fails and resolves with the same sequence
    of two entries, [example.txt] then [document.pdf], each an
    [{id, name, path, size}]; the query is not looked at, so no query
    gets the empty sequence. *)
Theorem search_local_files_fixed (args : Value) (w : World) :
  (MockTauri.invoke "search_local_files" args w).1 = Ok (VArr MockTauri.search_results) /\
  Forall is_file_info MockTauri.search_results /\
  (fun entry => text_of (optional_property entry "name")) <$> MockTauri.search_results
  = ["example.txt"; "document.pdf"]%string.
Proof.
  split; [reflexivity|]. split; [|reflexivity].
  repeat constructor; unfold is_file_info; eauto 8.
Qed.

(** ** Failures of the backend *)

(** Whether the promise is resolved or rejected, and with whatever value,
    a submission that passes the guard ends with the loading flag reset
    ([finally]). *)
Lemma handleSubmit_resets_loading (invoke : Backend) (snap : State) (sys : Sys) :
  is_empty (trim (inputValue snap)) = false ->
  isLoading snap = false ->
  isLoading (store (handleSubmit invoke snap sys).2) = false.
Proof.
  intros Ht Hl. run_handler_folded. rewrite Ht, Hl. cbn. case_split; reflexivity.
Qed.

(** At rest the component is never loading: no event leaves the flag set. *)
Lemma not_loading_after_step (invoke : Backend) (ev : Event) (sys : Sys) :
  isLoading (store sys) = false -> isLoading (store (step invoke ev sys)) = false.
Proof.
  intros Hl. destruct ev; cbn.
  - run_handler_folded. rewrite Hl. case_split; auto.
  - run_handler_folded. case_split; auto.
  - run_handler_folded. case_split; auto.
  - exact Hl.
Qed.

Lemma not_loading_after_run (invoke : Backend) (events : list Event) (sys : Sys) :
  isLoading (store sys) = false -> isLoading (store (run invoke events sys)) = false.
Proof.
  revert sys. induction events as [|ev events IH]; intros sys Hl; cbn; [exact Hl|].
  apply IH, not_loading_after_step, Hl.
Qed.

(** A rejection of [process_user_message] whose value has a [message]
    that converts to text is folded into the conversation: after the
    message of the operator comes one message of the assistant with that
    text, the handler ends normally, the loading flag is reset and the
    pending approval is as before. *)
Lemma handleSubmit_rejection_folded
    (invoke : Backend) (sys : Sys) (e m : Value) (text : string) (w' : World) :
  is_empty (trim (inputValue (store sys))) = false ->
  isLoading (store sys) = false ->
  invoke "process_user_message"
    (message_args (inputValue (store sys)) (world sys)) (ticked 2 (world sys))
  = (Throw e, w') ->
  get_property e "message" = Ok m ->
  to_string m = Some text ->
  let '(r, sys') := handleSubmit invoke (store sys) sys in
  r = Ok tt /\
  messages (store sys')
  = messages (store sys) ++
    [ mkMessage (Z_to_string (reading 0 (world sys))) (inputValue (store sys)) user
        (reading 1 (world sys));
      mkMessage (Z_to_string (reading 0 w' + 1)) ("错误: " +:+ text) assistant
        (reading 1 w') ] /\
  isLoading (store sys') = false /\
  pendingApproval (store sys') = pendingApproval (store sys) /\
  world sys' = ticked 2 (logging error [VStr "Error processing message:"; e] w').
Proof.
  intros Ht Hl Hi Hm Hs. run_handler. rewrite Ht, Hl. cbn.
  unfold message_args, variable_or, ticked in Hi. cbn in Hi.
  destruct (operationPreviews (store sys)); cbn;
    rewrite Hi; cbn; rewrite Hm; cbn; rewrite Hs; cbn;
    rewrite <- app_assoc; repeat split.
Qed.

(** The same for [approve_tool_call]: one message of the assistant, and
    the pending approval stays for a retry or a rejection. *)
Lemma handleApproveOperation_rejection_folded
    (invoke : Backend) (sys : Sys) (p : PendingApproval)
    (e m : Value) (text : string) (w' : World) :
  pendingApproval (store sys) = Some p ->
  invoke "approve_tool_call" (approval_args p) (world sys) = (Throw e, w') ->
  get_property e "message" = Ok m ->
  to_string m = Some text ->
  let '(r, sys') := handleApproveOperation invoke (store sys) sys in
  r = Ok tt /\
  messages (store sys')
  = messages (store sys) ++
    [ mkMessage (Z_to_string (reading 0 w')) ("批准操作失败: " +:+ text) assistant
        (reading 1 w') ] /\
  pendingApproval (store sys') = Some p /\
  isLoading (store sys') = isLoading (store sys) /\
  world sys' = ticked 2 (logging error [VStr "Error approving operation:"; e] w').
Proof.
  intros Hp Hi Hm Hs. run_handler. rewrite Hp. cbn.
  unfold approval_args in Hi. rewrite Hi. cbn. rewrite Hm. cbn. rewrite Hs. cbn.
  destruct (operationPreviews (store sys)); cbn; repeat split; exact Hp.
Qed.

(** Whatever the rejection value, a rejected [approve_tool_call] leaves
    the pending approval in place. *)
Lemma handleApproveOperation_rejection_keeps_pending
    (invoke : Backend) (sys : Sys) (e : Value) (w' : World) (p : PendingApproval) :
  pendingApproval (store sys) = Some p ->
  invoke "approve_tool_call" (approval_args p) (world sys) = (Throw e, w') ->
  pendingApproval (store (handleApproveOperation invoke (store sys) sys).2) = Some p.
Proof.
  intros Hp Hi. run_handler. rewrite Hp. cbn.
  unfold approval_args in Hi. rewrite Hi. cbn. case_split; assumption.
Qed.

(** C6. The code departs from the claim where the promise is rejected
    with [null]: the [catch] block of [handleSubmit], whose comment says
    that it shows the error message, reads [.message] of the rejection
    value unguarded, and that read throws. No error message is appended
    (the conversation only gains the message of the operator), the first
    operation preview stays [executing], and a TypeError leaves the
    handler. The loading flag is reset all the same. ([initMcp], next to
    it, hands the rejection value to the console as it is and copes with
    any value.) *)
Lemma submission_rejected_with_null :
  let sys := at_rest (typed "hello") (quiet (1 # 2) "sk-ant") in
  let '(r, sys') := handleSubmit (rejecting VNull) (store sys) sys in
  r = Throw (TypeError "Cannot read properties of null (reading 'message')") /\
  messages (store sys') = messages (store sys) ++ [mkMessage "1000" "hello" user 1001] /\
  status <$> operationPreviews (store sys') = [executing; pending] /\
  isLoading (store sys') = false.
Proof.
  vm_compute. repeat split.
Qed.

(** X25. The [catch] blocks read [(error as Error).message]. For every
    rejection value from which a message can be read and converted to
    text (an [Error], a string, any object: every value but [null],
    [undefined] and an object whose message cannot be converted), a
    rejected [process_user_message] and a rejected [approve_tool_call]
    are caught and folded into the conversation as one appended message
    of the assistant, the handler ends normally, and the loading flag is
    off afterwards. *)
Theorem rejection_folded_into_conversation
    (invoke : Backend) (sys : Sys) (e m : Value) (text : string) :
  get_property e "message" = Ok m ->
  to_string m = Some text ->
  isLoading (store sys) = false ->
  (forall w' : World,
     is_empty (trim (inputValue (store sys))) = false ->
     invoke "process_user_message"
       (message_args (inputValue (store sys)) (world sys)) (ticked 2 (world sys))
     = (Throw e, w') ->
     let '(r, sys') := handleSubmit invoke (store sys) sys in
     r = Ok tt /\
     messages (store sys')
     = messages (store sys) ++
       [ mkMessage (Z_to_string (reading 0 (world sys))) (inputValue (store sys)) user
           (reading 1 (world sys));
         mkMessage (Z_to_string (reading 0 w' + 1)) ("错误: " +:+ text) assistant
           (reading 1 w') ] /\
     isLoading (store sys') = false) /\
  (forall (p : PendingApproval) (w' : World),
     pendingApproval (store sys) = Some p ->
     invoke "approve_tool_call" (approval_args p) (world sys) = (Throw e, w') ->
     let '(r, sys') := handleApproveOperation invoke (store sys) sys in
     r = Ok tt /\
     messages (store sys')
     = messages (store sys) ++
       [ mkMessage (Z_to_string (reading 0 w')) ("批准操作失败: " +:+ text) assistant
           (reading 1 w') ] /\
     isLoading (store sys') = false).
Proof.
  intros Hm Hs Hl. split.
  - intros w' Ht Hi.
    pose proof (handleSubmit_rejection_folded invoke sys e m text w' Ht Hl Hi Hm Hs) as H.
    destruct (handleSubmit invoke (store sys) sys) as [r sys']. tauto.
  - intros p w' Hp Hi.
    pose proof (handleApproveOperation_rejection_folded invoke sys p e m text w' Hp Hi Hm Hs)
      as H.
    destruct (handleApproveOperation invoke (store sys) sys) as [r sys'].
    destruct H as (Hr & Hmsg & _ & Hload & _). rewrite Hload. auto.
Qed.

(** Both commands rejected with [new Error("connection refused")]. *)
Lemma rejection_folded_into_conversation_witness :
  let e := VError "Error" "connection refused" in
  let sys := at_rest (awaiting "hello" (dangerous_operation "1000")) (quiet (1 # 2) "sk-ant") in
  (let '(r, sys') := handleSubmit (rejecting e) (store sys) sys in
   r = Ok tt /\
   messages (store sys')
   = messages (store sys) ++
     [ mkMessage "1000" "hello" user 1001;
       mkMessage "1003" "错误: connection refused" assistant 1003 ] /\
   isLoading (store sys') = false) /\
  (let '(r, sys') := handleApproveOperation (rejecting e) (store sys) sys in
   r = Ok tt /\
   messages (store sys')
   = messages (store sys) ++
     [ mkMessage "1000" "批准操作失败: connection refused" assistant 1001 ] /\
   isLoading (store sys') = false).
Proof.
  intros e sys.
  pose proof (rejection_folded_into_conversation (rejecting e) sys e
                (VStr "connection refused") "connection refused"
                eq_refl eq_refl eq_refl) as [Hsubmit Happrove].
  split.
  - exact (Hsubmit (ticked 2 (world sys)) eq_refl eq_refl).
  - exact (Happrove (dangerous_operation "1000") (world sys) eq_refl eq_refl).
Defined.

(** C8. The code departs from the claim where the promise is rejected
    with [null]: the [catch] block of [handleApproveOperation], there to
    show the error message, throws on the unguarded [.message] before it
    appends anything. The pending approval is kept, as claimed, but the
    conversation gains no error message, the first operation preview is
    not marked, and a TypeError leaves the handler. *)
Lemma approval_rejected_with_null :
  let p := dangerous_operation "1000" in
  let sys := at_rest (awaiting "" p) (quiet (1 # 2) "sk-ant") in
  let '(r, sys') := handleApproveOperation (rejecting VNull) (store sys) sys in
  r = Throw (TypeError "Cannot read properties of null (reading 'message')") /\
  pendingApproval (store sys') = Some p /\
  messages (store sys') = messages (store sys) /\
  operationPreviews (store sys') = operationPreviews (store sys) /\
  invoked sys' = [("approve_tool_call", approval_args p)].
Proof.
  vm_compute. repeat split.
Qed.

(** X26. When [approve_tool_call] is rejected, the pending approval
    keeps its value, whatever the rejection value; and for every
    rejection value from which a message can be read and converted to
    text, exactly one message, the error message, is appended to the
    conversation. *)
Theorem approval_atomic_on_rejection
    (invoke : Backend) (sys : Sys) (p : PendingApproval) (e : Value) (w' : World) :
  pendingApproval (store sys) = Some p ->
  invoke "approve_tool_call" (approval_args p) (world sys) = (Throw e, w') ->
  pendingApproval (store (step invoke Approve sys)) = Some p /\
  forall (m : Value) (text : string),
    get_property e "message" = Ok m ->
    to_string m = Some text ->
    messages (store (step invoke Approve sys))
    = messages (store sys) ++
      [ mkMessage (Z_to_string (reading 0 w')) ("批准操作失败: " +:+ text) assistant
          (reading 1 w') ].
Proof.
  intros Hp Hi. split.
  - apply (handleApproveOperation_rejection_keeps_pending invoke sys e w' p Hp Hi).
  - intros m text Hm Hs. unfold step.
    pose proof (handleApproveOperation_rejection_folded invoke sys p e m text w' Hp Hi Hm Hs)
      as H.
    destruct (handleApproveOperation invoke (store sys) sys) as [r sys']. apply H.
Qed.

(** The approval rejected with the string ["tool server unreachable"],
    as a Tauri command that returns an error text does: the text shown
    is [undefined], a string having no [message]. *)
Lemma approval_atomic_on_rejection_witness :
  let p := dangerous_operation "1000" in
  let sys := at_rest (awaiting "" p) (quiet (1 # 2) "sk-ant") in
  let after := store (step (rejecting (VStr "tool server unreachable")) Approve sys) in
  pendingApproval after = Some p /\
  messages after
  = messages (store sys) ++ [ mkMessage "1000" "批准操作失败: undefined" assistant 1001 ].
Proof.
  intros p sys after.
  pose proof (approval_atomic_on_rejection (rejecting (VStr "tool server unreachable"))
                sys p (VStr "tool server unreachable") (world sys) eq_refl eq_refl)
    as [Hkept Hmessage].
  split.
  - exact Hkept.
  - exact (Hmessage VUndefined "undefined" eq_refl eq_refl).
Defined.

(** ** updateOperationStatus *)

Lemma marked_lookup (id : string) (st : Status) (ops : list OperationPreview) (i : nat) :
  marked id st ops !! i
  = (fun op => mkOperationPreview (op_id op) (title op) (op_description op)
                 (if String.eqb (op_id op) id then st else status op)) <$> ops !! i.
Proof.
  unfold marked. rewrite list_lookup_fmap.
  destruct (ops !! i) as [op|]; cbn; [|reflexivity].
  destruct (String.eqb (op_id op) id); [reflexivity | destruct op; reflexivity].
Qed.

Lemma marked_marked (id : string) (st st' : Status) (ops : list OperationPreview) :
  marked id st' (marked id st ops) = marked id st' ops.
Proof.
  unfold marked. rewrite <- list_fmap_compose. apply list_fmap_ext.
  intros i op _. cbn. destruct (String.eqb (op_id op) id) eqn:E; cbn; rewrite E; reflexivity.
Qed.

Lemma marked_comm (id id' : string) (st st' : Status) (ops : list OperationPreview) :
  id <> id' ->
  marked id' st' (marked id st ops) = marked id st (marked id' st' ops).
Proof.
  intros Hne. unfold marked. rewrite <- !list_fmap_compose. apply list_fmap_ext.
  intros i op _. cbn.
  destruct (String.eqb (op_id op) id) eqn:E, (String.eqb (op_id op) id') eqn:E';
    cbn; rewrite ?E, ?E'; try reflexivity.
  apply String.eqb_eq in E, E'. congruence.
Qed.

Lemma marked_absent (id : string) (st : Status) (ops : list OperationPreview) :
  Forall (fun op => op_id op <> id) ops -> marked id st ops = ops.
Proof.
  induction 1 as [|op ops Hop _ IH]; [reflexivity|].
  unfold marked in *. cbn. rewrite IH.
  apply String.eqb_neq in Hop. rewrite Hop. reflexivity.
Qed.

Lemma first_id_marked (id : string) (st : Status) (ops : list OperationPreview) :
  first_id (marked id st ops) = first_id ops.
Proof.
  destruct ops as [|op ops]; [reflexivity|]. cbn.
  destruct (String.eqb (op_id op) id); reflexivity.
Qed.

(** X1. [updateOperationStatus(id, st)] changes statuses and nothing
    else: the list keeps its length and order, every preview keeps its
    id, title and description, a preview whose id is [id] gets the status
    [st] and any other keeps its own; the rest of the store, the world
    and the invoked commands are untouched. *)
Theorem updateOperationStatus_only_status (id : string) (st : Status) (sys : Sys) :
  let '(r, sys') := updateOperationStatus id st sys in
  r = Ok tt /\
  length (operationPreviews (store sys')) = length (operationPreviews (store sys)) /\
  (forall (i : nat) (op : OperationPreview),
     operationPreviews (store sys) !! i = Some op ->
     operationPreviews (store sys') !! i
     = Some (mkOperationPreview (op_id op) (title op) (op_description op)
               (if String.eqb (op_id op) id then st else status op))) /\
  messages (store sys') = messages (store sys) /\
  inputValue (store sys') = inputValue (store sys) /\
  isLoading (store sys') = isLoading (store sys) /\
  pendingApproval (store sys') = pendingApproval (store sys) /\
  mcpServers (store sys') = mcpServers (store sys) /\
  world sys' = world sys /\
  invoked sys' = invoked sys.
Proof.
  unfold updateOperationStatus, setOperationPreviews, update_store. cbn.
  split; [reflexivity|]. split; [apply length_fmap|]. split; [|repeat split].
  intros i op Hop.
  change (marked id st (operationPreviews (store sys)) !! i = Some
    (mkOperationPreview (op_id op) (title op) (op_description op)
       (if String.eqb (op_id op) id then st else status op))).
  rewrite marked_lookup, Hop. reflexivity.
Qed.

(** X2. An id that no preview has: [updateOperationStatus] leaves the
    whole component as it is (no error, no change). *)
Theorem updateOperationStatus_unknown_id (id : string) (st : Status) (sys : Sys) :
  Forall (fun op => op_id op <> id) (operationPreviews (store sys)) ->
  updateOperationStatus id st sys = (Ok tt, sys).
Proof.
  intros Habsent. unfold updateOperationStatus, setOperationPreviews, update_store.
  change ((fun op => if String.eqb (op_id op) id then with_status st op else op)
            <$> operationPreviews (store sys))
    with (marked id st (operationPreviews (store sys))).
  rewrite (marked_absent _ _ _ Habsent).
  destruct sys as [[] ? ? ?]. reflexivity.
Qed.

Lemma updateOperationStatus_unknown_id_witness :
  let sys := at_rest (initial 0) (quiet (1 # 2) "sk-ant") in
  updateOperationStatus "op3" failed sys = (Ok tt, sys).
Proof.
  intros sys. apply updateOperationStatus_unknown_id.
  repeat constructor; discriminate.
Defined.

(** X3. Two updates in a row: for the same id the later status stands,
    as if the earlier update had not been made; for different ids the
    order of the two updates does not matter. *)
Theorem updateOperationStatus_twice (id id' : string) (st st' : Status) (sys : Sys) :
  (updateOperationStatus id st ;; updateOperationStatus id st') sys
  = updateOperationStatus id st' sys /\
  (id <> id' ->
   (updateOperationStatus id st ;; updateOperationStatus id' st') sys
   = (updateOperationStatus id' st' ;; updateOperationStatus id st) sys).
Proof.
  unfold updateOperationStatus, setOperationPreviews, update_store, bind. cbn.
  split.
  - do 3 f_equal. apply (marked_marked id st st').
  - intros Hne. do 3 f_equal. apply (marked_comm id id' st st' _ Hne).
Qed.

(** ** White space, continued *)

Lemma code_points_nonempty (s : string) :
  Forall (fun point => point <> EmptyString) (code_points s).
Proof.
  induction s as [|c rest IH]; cbn; [constructor|].
  destruct (code_points rest) as [|[|d tail] more] eqn:E.
  - repeat constructor. discriminate.
  - constructor; [discriminate | exact IH].
  - destruct (is_continuation d).
    + constructor; [discriminate|]. inversion IH; assumption.
    + constructor; [discriminate | exact IH].
Qed.

Lemma concat_nonempty (l : list string) :
  Forall (fun point => point <> EmptyString) l ->
  String.concat "" l = EmptyString -> l = [].
Proof.
  destruct 1 as [|x l Hx _]; [reflexivity|].
  cbn. destruct x as [|c x]; [congruence|].
  destruct l; cbn; discriminate.
Qed.

Lemma drop_while_nil {A} (p : A -> bool) (l : list A) :
  drop_while p l = [] -> Forall (fun x => p x = true) l.
Proof.
  induction l as [|x l IH]; cbn; [constructor|].
  destruct (p x) eqn:E; [|discriminate]. intros H. constructor; auto.
Qed.

Lemma drop_while_head {A} (p : A -> bool) (l : list A) (x : A) (rest : list A) :
  drop_while p l = x :: rest -> p x = false.
Proof.
  induction l as [|y l IH]; cbn; [discriminate|].
  destruct (p y) eqn:E; [exact IH|]. intros [= <- _]. exact E.
Qed.

Lemma drop_while_Forall {A} (P : A -> Prop) (p : A -> bool) (l : list A) :
  Forall P l -> Forall P (drop_while p l).
Proof.
  induction 1 as [|x l Hx Hl IH]; cbn; [constructor|].
  destruct (p x); [exact IH | constructor; assumption].
Qed.

(** [trim] gives the empty string for blank strings only. *)
Lemma trim_empty_blank (s : string) : trim s = "" -> blank s.
Proof.
  unfold trim, blank. intros H.
  set (inner := drop_while is_white_space (code_points s)) in *.
  assert (Hne : Forall (fun point => point <> EmptyString) inner)
    by apply drop_while_Forall, code_points_nonempty.
  apply concat_nonempty in H.
  2:{ apply Forall_rev, drop_while_Forall, Forall_rev, Hne. }
  apply (f_equal (@rev string)) in H. rewrite rev_involutive in H. cbn in H.
  apply drop_while_nil in H. apply Forall_rev in H. rewrite rev_involutive in H.
  destruct inner as [|x rest] eqn:E.
  - apply drop_while_nil. exact E.
  - apply drop_while_head in E. inversion H; congruence.
Qed.

Lemma is_empty_trim (s : string) : is_empty (trim s) = true <-> blank s.
Proof.
  unfold is_empty. rewrite String.eqb_eq. split; [apply trim_empty_blank | apply trim_blank].
Qed.

(** ** handleSubmit, past the guard *)

Lemma handleSubmit_guard (invoke : Backend) (snap : State) (sys : Sys) :
  is_empty (trim (inputValue snap)) || isLoading snap = true ->
  handleSubmit invoke snap sys = (Ok tt, mkSys (store sys) (world sys) (invoked sys) true).
Proof.
  intros Hguard. unfold handleSubmit, bind, preventDefault. rewrite Hguard. reflexivity.
Qed.

Lemma Z_to_string_inj (a b : Z) : Z_to_string a = Z_to_string b -> a = b.
Proof.
  unfold Z_to_string. intros H.
  assert (Hnorm : forall z : Z, NilZero.int_of_string (NilZero.string_of_int (Z.to_int z))
                                = Some (Z.to_int z)).
  { intros z. apply NilZero.isi; destruct z as [|p|p]; cbn; try discriminate;
      intros [= E]; exact (DecimalPos.Unsigned.to_uint_nonnil p E). }
  apply DecimalZ.to_int_inj.
  pose proof (Hnorm a) as Ha. rewrite H, Hnorm in Ha. congruence.
Qed.

Lemma app_one_neq {A} (l : list A) (x : A) : l ++ [x] <> l.
Proof.
  intros H. apply (f_equal length) in H. rewrite length_app in H. cbn in H. lia.
Qed.

(** X4. A submission that the backend answers with anything but the
    sentinel: the conversation gains the message of the operator and one
    reply of the assistant, which carries the answer when it is a string
    and the fixed text otherwise (no answer makes the handler fail); the
    input is cleared, the loading flag is off, the pending approval is as
    before, and every preview with the id of the first is [completed]. *)
Theorem handleSubmit_reply
    (invoke : Backend) (sys : Sys) (result : Value) (w' : World) :
  is_empty (trim (inputValue (store sys))) = false ->
  isLoading (store sys) = false ->
  invoke "process_user_message"
    (message_args (inputValue (store sys)) (world sys)) (ticked 2 (world sys))
  = (Ok result, w') ->
  strict_equals_string result "PENDING_APPROVAL" = false ->
  let '(r, sys') := handleSubmit invoke (store sys) sys in
  r = Ok tt /\
  messages (store sys')
  = messages (store sys) ++
    [ mkMessage (Z_to_string (reading 0 (world sys))) (inputValue (store sys)) user
        (reading 1 (world sys));
      mkMessage (Z_to_string (reading 0 w' + 1))
        ("AI回复: " +:+ match result with VStr text => text | _ => "操作已完成" end)
        assistant (reading 1 w') ] /\
  inputValue (store sys') = "" /\
  isLoading (store sys') = false /\
  pendingApproval (store sys') = pendingApproval (store sys) /\
  operationPreviews (store sys')
  = marked (first_id (operationPreviews (store sys))) completed
      (operationPreviews (store sys)) /\
  world sys' = ticked 2 w'.
Proof.
  intros Ht Hl Hi Hne. run_handler. rewrite Ht, Hl. cbn.
  unfold message_args, variable_or, ticked in Hi. cbn in Hi.
  destruct (operationPreviews (store sys)) as [|op ops] eqn:Hops; cbn;
    rewrite Hi; cbn; rewrite Hne; cbn; rewrite <- app_assoc; repeat split.
  apply (marked_marked (op_id op) executing completed (op :: ops)).
Qed.

(** The mock, a draw of 1/2: the answer is the processed text. *)
Lemma handleSubmit_reply_witness :
  let sys := at_rest (typed " hello ") (quiet (1 # 2) "sk-ant") in
  let '(r, sys') := handleSubmit MockTauri.invoke (store sys) sys in
  r = Ok tt /\
  messages (store sys')
  = messages (store sys) ++
    [ mkMessage "1000" " hello " user 1001;
      mkMessage "1003"
        ("AI回复: Processed message: " +:+ quote +:+ " hello " +:+ quote) assistant 1003 ] /\
  status <$> operationPreviews (store sys') = [completed; pending].
Proof.
  intros sys.
  pose proof (handleSubmit_reply MockTauri.invoke sys
                (VStr ("Processed message: " +:+ quote +:+ " hello " +:+ quote))
                (MockTauri.invoke "process_user_message"
                   (message_args " hello " (world sys)) (ticked 2 (world sys))).2
                eq_refl eq_refl eq_refl eq_refl) as H.
  destruct (handleSubmit MockTauri.invoke (store sys) sys) as [r sys'].
  destruct H as (Hr & Hm & _ & _ & _ & Hops & _).
  split; [exact Hr|]. split; [exact Hm|]. rewrite Hops. reflexivity.
Defined.

(** X5. A submission that the backend answers with the sentinel: the
    conversation gains the message of the operator and no reply, a fresh
    request for [dangerous_operation] is pending with the clock reading
    as id, every preview with the id of the first is left [executing],
    the input is cleared and the loading flag is off. *)
Theorem handleSubmit_sentinel (invoke : Backend) (sys : Sys) (w' : World) :
  is_empty (trim (inputValue (store sys))) = false ->
  isLoading (store sys) = false ->
  invoke "process_user_message"
    (message_args (inputValue (store sys)) (world sys)) (ticked 2 (world sys))
  = (Ok (VStr "PENDING_APPROVAL"), w') ->
  let '(r, sys') := handleSubmit invoke (store sys) sys in
  r = Ok tt /\
  messages (store sys')
  = messages (store sys) ++
    [ mkMessage (Z_to_string (reading 0 (world sys))) (inputValue (store sys)) user
        (reading 1 (world sys)) ] /\
  pendingApproval (store sys') = Some (dangerous_operation (Z_to_string (reading 0 w'))) /\
  operationPreviews (store sys')
  = marked (first_id (operationPreviews (store sys))) executing
      (operationPreviews (store sys)) /\
  inputValue (store sys') = "" /\
  isLoading (store sys') = false /\
  world sys' = ticked 1 w'.
Proof.
  intros Ht Hl Hi. run_handler. rewrite Ht, Hl. cbn.
  unfold message_args, variable_or, ticked in Hi. cbn in Hi.
  destruct (operationPreviews (store sys)) as [|op ops] eqn:Hops; cbn;
    rewrite Hi; cbn; repeat split.
Qed.

(** The mock, a draw of 3/4. *)
Lemma handleSubmit_sentinel_witness :
  let sys := at_rest (typed "delete it") (quiet (3 # 4) "sk-ant") in
  let '(r, sys') := handleSubmit MockTauri.invoke (store sys) sys in
  r = Ok tt /\
  messages (store sys')
  = messages (store sys) ++ [ mkMessage "1000" "delete it" user 1001 ] /\
  pendingApproval (store sys') = Some (dangerous_operation "1002") /\
  status <$> operationPreviews (store sys') = [executing; pending].
Proof.
  intros sys.
  pose proof (handleSubmit_sentinel MockTauri.invoke sys
                (MockTauri.invoke "process_user_message"
                   (message_args "delete it" (world sys)) (ticked 2 (world sys))).2
                eq_refl eq_refl eq_refl) as H.
  destruct (handleSubmit MockTauri.invoke (store sys) sys) as [r sys'].
  destruct H as (Hr & Hm & Hp & Hops & _).
  split; [exact Hr|]. split; [exact Hm|]. split; [exact Hp|]. rewrite Hops. reflexivity.
Defined.

(** X6. A submission that passes the guard hands exactly one command to
    the backend, whatever the backend answers and whether it resolves or
    rejects: [process_user_message] with the input as typed, not trimmed,
    and the three configuration values; the first message appended is the
    input as typed, and the input is cleared. This holds for the handler
    of any render. *)
Theorem handleSubmit_one_call (invoke : Backend) (snap : State) (sys : Sys) :
  is_empty (trim (inputValue snap)) = false ->
  isLoading snap = false ->
  let sys' := (handleSubmit invoke snap sys).2 in
  invoked sys'
  = invoked sys ++ [("process_user_message", message_args (inputValue snap) (world sys))] /\
  (exists more,
     messages (store sys')
     = messages (store sys) ++
       mkMessage (Z_to_string (reading 0 (world sys))) (inputValue snap) user
         (reading 1 (world sys)) :: more) /\
  inputValue (store sys') = "".
Proof.
  intros Ht Hl. run_handler_folded. rewrite Ht, Hl. cbn.
  unfold message_args.
  case_split; rewrite <- ?app_assoc; repeat split; eauto.
Qed.

(** Two blanks around the text; the backend rejects with [null]. *)
Lemma handleSubmit_one_call_witness :
  let snap := typed "  ls  " in
  let sys := at_rest snap (quiet (1 # 2) "sk-ant") in
  invoked (handleSubmit (rejecting VNull) snap sys).2
  = [("process_user_message",
      VObj [ ("message", VStr "  ls  ");
             ("apiKey", VStr "sk-ant");
             ("apiBase", VStr "https://api.anthropic.com");
             ("modelName", VStr "claude-3-5-sonnet-20241022") ])].
Proof.
  intros snap sys.
  exact (proj1 (handleSubmit_one_call (rejecting VNull) snap sys eq_refl eq_refl)).
Defined.

(** X7. The guard of [handleSubmit] and the submit button agree: the
    handler hands nothing to the backend exactly when the button of the
    same render is disabled, and that is exactly when the input is white
    space only or a submission is loading. *)
Theorem handleSubmit_guard_exact (invoke : Backend) (snap : State) (sys : Sys) :
  (invoked (handleSubmit invoke snap sys).2 = invoked sys <-> submit_disabled snap = true) /\
  (submit_disabled snap = true <-> blank (inputValue snap) \/ isLoading snap = true).
Proof.
  assert (Hview : submit_disabled snap = true
                  <-> blank (inputValue snap) \/ isLoading snap = true).
  { unfold submit_disabled. rewrite orb_true_iff, is_empty_trim. tauto. }
  split; [|exact Hview]. split.
  - intros Hsame. unfold submit_disabled.
    destruct (isLoading snap) eqn:Hl; [reflexivity|].
    destruct (is_empty (trim (inputValue snap))) eqn:Ht; [reflexivity|].
    exfalso.
    destruct (handleSubmit_one_call invoke snap sys Ht Hl) as [Hcall _].
    rewrite Hcall in Hsame. exact (app_one_neq _ _ Hsame).
  - intros Hdisabled. rewrite handleSubmit_guard; [reflexivity|].
    unfold submit_disabled in Hdisabled. rewrite orb_comm. exact Hdisabled.
Qed.

(** X8. Submitting twice in a row is submitting once: the first
    submission, if it passes the guard, clears the input, so the second
    returns at the guard. For every backend the component after two
    submissions is the component after one. *)
Theorem submit_twice (invoke : Backend) (sys : Sys) :
  step invoke Submit (step invoke Submit sys) = step invoke Submit sys.
Proof.
  assert (Hafter : is_empty (trim (inputValue (store (step invoke Submit sys))))
                   || isLoading (store (step invoke Submit sys)) = true
                   /\ defaultPrevented (step invoke Submit sys) = true).
  { unfold step.
    destruct (is_empty (trim (inputValue (store sys))) || isLoading (store sys)) eqn:Hg.
    - rewrite handleSubmit_guard by exact Hg. cbn. auto.
    - apply orb_false_iff in Hg as [Ht Hl].
      run_handler_folded. rewrite Ht, Hl. cbn. case_split; auto. }
  destruct Hafter as [Hguard Hflag].
  generalize dependent (step invoke Submit sys). intros once Hguard Hflag.
  change (step invoke Submit once)
    with (handleSubmit invoke (store once)
            (mkSys (store once) (world once) (invoked once) false)).2.
  rewrite handleSubmit_guard by exact Hguard. cbn.
  destruct once as [st w calls flag]. cbn in Hflag. rewrite Hflag. reflexivity.
Qed.

(** X9. The [+ 1] in the id of the reply keeps the two messages of one
    submission apart: when the clock has not gone back between the
    reading for the message of the operator and the reading after the
    backend answered, the reply and the message of the operator have
    different ids. *)
Theorem reply_id_fresh (invoke : Backend) (sys : Sys) (result : Value) (w' : World) :
  is_empty (trim (inputValue (store sys))) = false ->
  isLoading (store sys) = false ->
  invoke "process_user_message"
    (message_args (inputValue (store sys)) (world sys)) (ticked 2 (world sys))
  = (Ok result, w') ->
  strict_equals_string result "PENDING_APPROVAL" = false ->
  (reading 0 (world sys) <= reading 0 w')%Z ->
  exists (question answer : Message),
    messages (store (step invoke Submit sys))
    = messages (store sys) ++ [question; answer] /\
    role question = user /\ role answer = assistant /\
    msg_id question <> msg_id answer.
Proof.
  intros Ht Hl Hi Hne Hclock. cbn. run_handler. rewrite Ht, Hl. cbn.
  unfold message_args, variable_or, ticked in Hi. cbn in Hi.
  unfold reading in Hclock. cbn in Hclock.
  destruct (operationPreviews (store sys)); cbn;
    rewrite Hi; cbn; rewrite Hne; cbn; rewrite <- app_assoc;
    (do 2 eexists; split; [reflexivity|]; cbn; repeat split;
     intros Hid; apply Z_to_string_inj in Hid; lia).
Qed.

Lemma reply_id_fresh_witness :
  let sys := at_rest (typed "hello") (quiet (1 # 2) "sk-ant") in
  exists (question answer : Message),
    messages (store (step MockTauri.invoke Submit sys))
    = messages (store sys) ++ [question; answer] /\
    role question = user /\ role answer = assistant /\
    msg_id question <> msg_id answer.
Proof.
  intros sys.
  apply (reply_id_fresh MockTauri.invoke sys
           (VStr ("Processed message: " +:+ quote +:+ "hello" +:+ quote))
           (MockTauri.invoke "process_user_message"
              (message_args "hello" (world sys)) (ticked 2 (world sys))).2);
    try reflexivity.
  vm_compute. discriminate.
Defined.

(** ** handleApproveOperation, continued *)

(** X10. Accepting when nothing is pending does nothing at all: no
    command goes to the backend, no message is appended, the clock is not
    read; the component is exactly as before. *)
Theorem handleApproveOperation_nothing_pending
    (invoke : Backend) (snap : State) (sys : Sys) :
  pendingApproval snap = None ->
  handleApproveOperation invoke snap sys = (Ok tt, sys).
Proof.
  intros Hnone. unfold handleApproveOperation. rewrite Hnone. reflexivity.
Qed.

Lemma handleApproveOperation_nothing_pending_witness :
  let sys := at_rest (typed "hello") (quiet (1 # 2) "sk-ant") in
  handleApproveOperation (rejecting VNull) (typed "hello") sys = (Ok tt, sys).
Proof.
  intros sys. apply handleApproveOperation_nothing_pending. reflexivity.
Defined.

(** X11. An accept whose command resolves with a result that converts to
    text: exactly one command went to the backend, the conversation gains
    one message of the assistant with that text, every preview with the
    id of the first has the status [completed] and keeps its id, title
    and description, every other preview is as before, the pending
    approval is cleared, and the input and the loading flag are as
    before. *)
Theorem handleApproveOperation_result
    (invoke : Backend) (sys : Sys) (p : PendingApproval)
    (result : Value) (text : string) (w' : World) :
  pendingApproval (store sys) = Some p ->
  invoke "approve_tool_call" (approval_args p) (world sys) = (Ok result, w') ->
  to_string result = Some text ->
  let '(r, sys') := handleApproveOperation invoke (store sys) sys in
  r = Ok tt /\
  invoked sys' = invoked sys ++ [("approve_tool_call", approval_args p)] /\
  messages (store sys')
  = messages (store sys) ++
    [ mkMessage (Z_to_string (reading 0 w')) ("操作结果: " +:+ text) assistant
        (reading 1 w') ] /\
  operationPreviews (store sys')
  = marked (first_id (operationPreviews (store sys))) completed
      (operationPreviews (store sys)) /\
  (forall (i : nat) (op : OperationPreview),
     operationPreviews (store sys) !! i = Some op ->
     operationPreviews (store sys') !! i
     = Some (mkOperationPreview (op_id op) (title op) (op_description op)
               (if String.eqb (op_id op) (first_id (operationPreviews (store sys)))
                then completed else status op))) /\
  pendingApproval (store sys') = None /\
  inputValue (store sys') = inputValue (store sys) /\
  isLoading (store sys') = isLoading (store sys) /\
  world sys' = ticked 2 w'.
Proof.
  intros Hp Hi Hs.
  assert (Hmarked :
    forall (i : nat) (op : OperationPreview),
      operationPreviews (store sys) !! i = Some op ->
      marked (first_id (operationPreviews (store sys))) completed
        (operationPreviews (store sys)) !! i
      = Some (mkOperationPreview (op_id op) (title op) (op_description op)
                (if String.eqb (op_id op) (first_id (operationPreviews (store sys)))
                 then completed else status op))).
  { intros i op Hop. rewrite marked_lookup, Hop. reflexivity. }
  revert Hmarked. run_handler. rewrite Hp. cbn.
  unfold approval_args in *. rewrite Hi. cbn. rewrite Hs. cbn.
  destruct (operationPreviews (store sys)); cbn; intros Hmarked; repeat split;
    exact Hmarked.
Qed.

Lemma handleApproveOperation_result_witness :
  let p := dangerous_operation "1000" in
  let sys := at_rest (awaiting "" p) (quiet (1 # 2) "sk-ant") in
  let '(r, sys') := handleApproveOperation MockTauri.invoke (store sys) sys in
  r = Ok tt /\
  messages (store sys')
  = messages (store sys) ++
    [ mkMessage "1000" "操作结果: Tool call dangerous_operation approved and executed"
        assistant 1001 ] /\
  status <$> operationPreviews (store sys') = [completed; pending] /\
  pendingApproval (store sys') = None.
Proof.
  intros p sys.
  pose proof (handleApproveOperation_result MockTauri.invoke sys p
                (VStr "Tool call dangerous_operation approved and executed")
                "Tool call dangerous_operation approved and executed"
                (MockTauri.invoke "approve_tool_call" (approval_args p) (world sys)).2
                eq_refl eq_refl eq_refl) as H.
  destruct (handleApproveOperation MockTauri.invoke (store sys) sys) as [r sys'].
  destruct H as (Hr & _ & Hm & Hops & _ & Hnone & _).
  split; [exact Hr|]. split; [exact Hm|]. split; [|exact Hnone].
  rewrite Hops. reflexivity.
Defined.

(** X12. An accept whose command resolves with a result that cannot be
    converted to text: the backend has run the command, yet the template
    of the result message throws, the [catch] block reports a failure
    with the text of that TypeError, every preview with the id of the
    first is [failed], and the approval stays pending. *)
Theorem handleApproveOperation_unconvertible_result
    (invoke : Backend) (sys : Sys) (p : PendingApproval) (result : Value) (w' : World) :
  pendingApproval (store sys) = Some p ->
  invoke "approve_tool_call" (approval_args p) (world sys) = (Ok result, w') ->
  to_string result = None ->
  let '(r, sys') := handleApproveOperation invoke (store sys) sys in
  r = Ok tt /\
  invoked sys' = invoked sys ++ [("approve_tool_call", approval_args p)] /\
  messages (store sys')
  = messages (store sys) ++
    [ mkMessage (Z_to_string (reading 1 w'))
        "批准操作失败: Cannot convert object to primitive value" assistant (reading 2 w') ] /\
  operationPreviews (store sys')
  = marked (first_id (operationPreviews (store sys))) failed
      (operationPreviews (store sys)) /\
  pendingApproval (store sys') = Some p /\
  console (world sys')
  = console w' ++ [mkLogEntry error [VStr "Error approving operation:"; cannot_convert]].
Proof.
  intros Hp Hi Hs. run_handler. rewrite Hp. cbn.
  unfold approval_args in *. rewrite Hi. cbn. rewrite Hs. cbn.
  destruct (operationPreviews (store sys)); cbn; repeat split; exact Hp.
Qed.

Lemma handleApproveOperation_unconvertible_result_witness :
  let p := dangerous_operation "1000" in
  let sys := at_rest (awaiting "" p) (quiet (1 # 2) "sk-ant") in
  let '(r, sys') := handleApproveOperation (resolving unconvertible) (store sys) sys in
  r = Ok tt /\
  pendingApproval (store sys') = Some p /\
  status <$> operationPreviews (store sys') = [failed; pending].
Proof.
  intros p sys.
  pose proof (handleApproveOperation_unconvertible_result (resolving unconvertible) sys p
                unconvertible (world sys) eq_refl eq_refl eq_refl) as H.
  destruct (handleApproveOperation (resolving unconvertible) (store sys) sys) as [r sys'].
  destruct H as (Hr & _ & _ & Hops & Hkept & _).
  split; [exact Hr|]. split; [exact Hkept|]. rewrite Hops. reflexivity.
Defined.

(** X13. What the operator accepts is what the card shows: accepting on
    a render whose confirmation card shows a tool name and a parameter
    text hands [approve_tool_call] with exactly that name and that text
    to the backend, once, whatever the store has become since and
    whatever the backend answers; on a render without card nothing is
    handed over. *)
Theorem approve_sends_what_is_shown (invoke : Backend) (snap : State) (sys : Sys) :
  invoked (handleApproveOperation invoke snap sys).2
  = invoked sys ++
    match confirmation_card snap with
    | Some card =>
        [("approve_tool_call",
          VObj [ ("toolName", VStr (shown_tool card));
                 ("arguments", shown_parameters card) ])]
    | None => []
    end.
Proof.
  unfold confirmation_card. run_handler.
  destruct (pendingApproval snap) as [p|]; cbn; [|rewrite app_nil_r; reflexivity].
  case_split; reflexivity.
Qed.

(** ** Whole sessions *)

Ltac conclude_added :=
  first [ exists []; rewrite ?app_nil_r; split; [reflexivity | cbn; auto with lia]
        | eexists [_]; rewrite <- ?app_assoc; split; [reflexivity | cbn; auto with lia]
        | eexists [_; _]; rewrite <- ?app_assoc; split; [reflexivity | cbn; auto with lia] ].

Lemma step_messages (invoke : Backend) (ev : Event) (sys : Sys) :
  exists added,
    messages (store (step invoke ev sys)) = messages (store sys) ++ added /\
    length added <= 2.
Proof.
  destruct ev; cbn; try run_handler_folded; case_split; conclude_added.
Qed.

Lemma step_invoked (invoke : Backend) (ev : Event) (sys : Sys) :
  exists calls,
    invoked (step invoke ev sys) = invoked sys ++ calls /\
    (length calls <= 1 /\ Forall handler_command calls).
Proof.
  destruct ev; cbn; try run_handler_folded; case_split;
    first [ exists []; rewrite ?app_nil_r; split; [reflexivity | split; [cbn; lia | constructor]]
          | eexists [_]; split; [reflexivity | split; [cbn; lia |]];
            constructor; [unfold handler_command; cbn; auto | constructor] ].
Qed.

Lemma restatused_once (o : OperationPreview) (l : list OperationPreview) (st : Status) :
  restatused (o :: l)
    (with_status st o
     :: ((fun op => if String.eqb (op_id op) (op_id o) then with_status st op else op)
           <$> l)).
Proof.
  right. exists st. unfold marked, first_id. cbn. rewrite String.eqb_refl. reflexivity.
Qed.

Lemma restatused_again
    (o : OperationPreview) (l : list OperationPreview) (st st' : Status) :
  restatused (o :: l)
    (with_status st' (with_status st o)
     :: ((fun op => if String.eqb (op_id op) (op_id o) then with_status st' op else op)
           <$> ((fun op => if String.eqb (op_id op) (op_id o) then with_status st op else op)
                  <$> l))).
Proof.
  right. exists st'.
  rewrite <- (marked_marked (first_id (o :: l)) st st' (o :: l)).
  unfold marked, first_id. cbn. rewrite String.eqb_refl. cbn. rewrite String.eqb_refl.
  reflexivity.
Qed.

Lemma step_previews (invoke : Backend) (ev : Event) (sys : Sys) :
  restatused (operationPreviews (store sys))
    (operationPreviews (store (step invoke ev sys))) /\
  mcpServers (store (step invoke ev sys)) = mcpServers (store sys).
Proof.
  destruct ev; cbn; try run_handler_folded; case_split; (split; [|reflexivity]);
    first [ left; reflexivity
          | apply restatused_once
          | apply restatused_again
          | exfalso;
            match goal with
            | H : String.eqb _ _ = false |- _ =>
                cbn in H; rewrite String.eqb_refl in H; discriminate H
            end ].
Qed.

Lemma restatused_trans (a b c : list OperationPreview) :
  restatused a b -> restatused b c -> restatused a c.
Proof.
  intros [-> | [st ->]] [-> | [st' ->]]; unfold restatused; eauto.
  right. exists st'. rewrite first_id_marked. apply marked_marked.
Qed.

(** X14. The conversation is append-only: whatever the operator does and
    whatever the backend answers, the messages before a run of events are
    an initial segment of the messages after it, never edited or removed,
    and an event appends at most two messages. *)
Theorem messages_append_only (invoke : Backend) (events : list Event) (sys : Sys) :
  messages (store sys) `prefix_of` messages (store (run invoke events sys)) /\
  length (messages (store (run invoke events sys)))
  <= length (messages (store sys)) + 2 * length events.
Proof.
  revert sys. induction events as [|ev events IH]; intros sys.
  - cbn. split; [reflexivity | lia].
  - change (run invoke (ev :: events) sys) with (run invoke events (step invoke ev sys)).
    cbn [length].
    destruct (step_messages invoke ev sys) as (added & Hadded & Hlen).
    destruct (IH (step invoke ev sys)) as [Hprefix Hbound]. split.
    + etransitivity; [|exact Hprefix]. rewrite Hadded. apply prefix_app_r. reflexivity.
    + rewrite Hadded, length_app in Hbound. lia.
Qed.

(** X15. The handlers hand two commands to the backend and no other:
    over any run of events every command handed over is
    [process_user_message] or [approve_tool_call], the commands handed
    over before stay recorded in order, and an event hands over at most
    one. *)
Theorem invoked_commands (invoke : Backend) (events : list Event) (sys : Sys) :
  exists calls,
    invoked (run invoke events sys) = invoked sys ++ calls /\
    length calls <= length events /\
    Forall handler_command calls.
Proof.
  revert sys. induction events as [|ev events IH]; intros sys.
  - exists []. cbn. rewrite app_nil_r. repeat split; [lia | constructor].
  - change (run invoke (ev :: events) sys) with (run invoke events (step invoke ev sys)).
    cbn [length].
    destruct (step_invoked invoke ev sys) as (first & Hfirst & Hlen & Hcmd).
    destruct (IH (step invoke ev sys)) as (more & Hmore & Hlen' & Hcmd').
    exists (first ++ more). rewrite Hmore, Hfirst, app_assoc, length_app.
    repeat split; [lia | apply Forall_app; auto].
Qed.

(** X16. Over any run of events the operation previews keep their
    number, order, ids, titles and descriptions, and only the previews
    that have the id of the first one ever change status, all to the
    same status; the list of servers never changes. *)
Theorem previews_only_restatused (invoke : Backend) (events : list Event) (sys : Sys) :
  restatused (operationPreviews (store sys))
    (operationPreviews (store (run invoke events sys))) /\
  mcpServers (store (run invoke events sys)) = mcpServers (store sys).
Proof.
  revert sys. induction events as [|ev events IH]; intros sys.
  - split; [left|]; reflexivity.
  - change (run invoke (ev :: events) sys) with (run invoke events (step invoke ev sys)).
    destruct (step_previews invoke ev sys) as [Hstep Hservers].
    destruct (IH (step invoke ev sys)) as [Hrest Hservers']. split.
    + exact (restatused_trans _ _ _ Hstep Hrest).
    + congruence.
Qed.

Lemma step_pending (invoke : Backend) (ev : Event) (sys : Sys) :
  pendingApproval (store (step invoke ev sys)) = pendingApproval (store sys) \/
  pendingApproval (store (step invoke ev sys)) = None \/
  exists id, pendingApproval (store (step invoke ev sys)) = Some (dangerous_operation id).
Proof.
  destruct ev; cbn; try run_handler_folded; case_split; eauto.
Qed.

(** X17. From the first render on, the only request the operator is ever
    asked to approve is the fixed one: whatever message was sent and
    whatever the backend answered besides the sentinel, a pending
    approval is for the tool [dangerous_operation] on [/example/path],
    so that is all that accepting ever sends to the backend. *)
Theorem pending_is_placeholder
    (invoke : Backend) (events : list Event) (mounted : Z) (w : World) :
  let st := store (run invoke events (at_rest (initial mounted) w)) in
  (pendingApproval st = None \/
   exists id, pendingApproval st = Some (dangerous_operation id)) /\
  forall card, confirmation_card st = Some card ->
    shown_tool card = "dangerous_operation" /\
    shown_parameters card
    = VStr ("{" +:+ quote +:+ "path" +:+ quote +:+ ":" +:+ quote +:+ "/example/path"
            +:+ quote +:+ "}").
Proof.
  cbn zeta.
  assert (Hinv : forall sys,
             (pendingApproval (store sys) = None \/
              exists id, pendingApproval (store sys) = Some (dangerous_operation id)) ->
             pendingApproval (store (run invoke events sys)) = None \/
             exists id, pendingApproval (store (run invoke events sys))
                        = Some (dangerous_operation id)).
  { induction events as [|ev events IH]; intros sys Hsys; [exact Hsys|].
    change (run invoke (ev :: events) sys) with (run invoke events (step invoke ev sys)).
    apply IH. destruct (step_pending invoke ev sys) as [-> | [-> | Hnew]]; auto. }
  specialize (Hinv (at_rest (initial mounted) w) (or_introl eq_refl)).
  split; [exact Hinv|].
  intros card. unfold confirmation_card.
  destruct Hinv as [-> | [id ->]]; cbn; [discriminate|].
  intros [= <-]. split; reflexivity.
Qed.

(** ** The first render *)

(** X18. [initMcp] never fails and never touches the store: for every
    backend, resolving or rejecting with any value ([null] included, the
    rejection value is only logged), it ends normally, hands the one
    command [init_mcp] without arguments to the backend, and leaves one
    line on the console after those of the backend: the success line, or
    the error line with the rejection value. *)
Theorem initMcp_never_fails (invoke : Backend) (sys : Sys) :
  let '(r, sys') := initMcp invoke sys in
  let '(answer, w) := invoke "init_mcp" VUndefined (world sys) in
  r = Ok tt /\
  store sys' = store sys /\
  invoked sys' = invoked sys ++ [("init_mcp", VUndefined)] /\
  world sys'
  = match answer with
    | Ok _ => logging log [VStr "MCP initialized"] w
    | Throw e => logging error [VStr "Failed to initialize MCP:"; e] w
    end.
Proof.
  unfold initMcp. unfold_monad. cbn.
  destruct (invoke "init_mcp" VUndefined (world sys)) as [[v|e] w]; cbn; repeat split.
Qed.

(** ** The mock backend, continued *)

(** X19. Whatever the command and its arguments, the mock writes exactly
    one line to the console, the command and the whole argument record,
    and touches nothing else of the world but the random source: it
    never reads the clock or changes the environment, and it takes one
    random draw for [process_user_message] and none for any other
    command. *)
Theorem invoke_world (command : string) (args : Value) (w : World) :
  let w' := (MockTauri.invoke command args w).2 in
  console w'
  = console w ++ [mkLogEntry log [VStr ("Mock Tauri invoke: " +:+ command); args]] /\
  clock w' = clock w /\
  clock_reads w' = clock_reads w /\
  env w' = env w /\
  random w' = random w /\
  random_draws w'
  = if String.eqb command "process_user_message" then S (random_draws w)
    else random_draws w.
Proof.
  unfold MockTauri.invoke. unfold_monad. cbn.
  case_split; repeat split;
    repeat match goal with
           | H : String.eqb _ _ = true |- _ => apply String.eqb_eq in H; subst
           end;
    discriminate.
Qed.

(** X20. The mock rejects for one reason only: the argument it puts into
    its answer ([name] for [greet], [message] for [process_user_message],
    [toolName] for [approve_tool_call]) cannot be converted to text, and
    then the rejection value is that TypeError. Every other call
    resolves: any command name, known or not, with any arguments. *)
Theorem invoke_rejects_only_unconvertible (command : string) (args : Value) (w : World) :
  (exists v, (MockTauri.invoke command args w).1 = Ok v) \/
  ((MockTauri.invoke command args w).1 = Throw cannot_convert /\
   exists key,
     In (command, key)
       [ ("greet", "name"); ("process_user_message", "message");
         ("approve_tool_call", "toolName") ]%string /\
     to_string (optional_property args key) = None).
Proof.
  unfold MockTauri.invoke. unfold_monad. cbn.
  case_split; eauto;
    right; (split; [reflexivity|]);
    repeat match goal with
           | H : String.eqb _ _ = true |- _ => apply String.eqb_eq in H; subst
           end;
    eexists; (split; [|eassumption]); cbn; auto.
Qed.

(** X21. Events are not delivered in the mock: [listen] then [emit] on
    the same event, then the unlisten function, leave two lines on the
    console and nothing else; the handler is not run and unlistening
    changes nothing. *)
Theorem emit_reaches_no_listener
    (event : string) (handler : Value -> M World unit) (payload : Value) (w : World) :
  let '(listening, w1) := MockTauri.listen event handler w in
  let '(emitted, w2) := MockTauri.emit event payload w1 in
  exists unlisten,
    listening = Ok unlisten /\
    emitted = Ok tt /\
    unlisten w2 = (Ok tt, w2) /\
    w2 = logging log [VStr ("Emitted event: " +:+ event); payload]
           (logging log [VStr ("Listening for event: " +:+ event)] w).
Proof.
  unfold MockTauri.listen, MockTauri.emit. unfold_monad. cbn.
  eexists. repeat split.
Qed.

(** ** The component on the mock *)

(** X22. Once its promises are settled the component is not loading:
    from a state that is not loading, after any run of events each
    handled to its end, with a backend that resolves or rejects every
    promise, the loading flag is off, so the submit button is disabled
    exactly when the input is white space only. (While a promise is
    outstanding, and for good if it is never settled, the flag stays
    set; that is outside this statement.) *)
Theorem button_disabled_only_by_blank_input
    (invoke : Backend) (events : list Event) (sys : Sys) :
  isLoading (store sys) = false ->
  let st := store (run invoke events sys) in
  isLoading st = false /\
  (submit_disabled st = true <-> blank (inputValue st)).
Proof.
  intros Hl st.
  assert (Hrest : isLoading st = false) by apply not_loading_after_run, Hl.
  split; [exact Hrest|].
  unfold submit_disabled. rewrite Hrest. cbn. apply is_empty_trim.
Qed.

Lemma button_disabled_only_by_blank_input_witness :
  let st := store (run MockTauri.invoke [Change "hello"; Submit; Approve]
                     (at_rest (initial 0) (quiet (3 # 4) "sk-ant"))) in
  isLoading st = false /\
  (submit_disabled st = true <-> blank (inputValue st)).
Proof.
  apply (button_disabled_only_by_blank_input MockTauri.invoke
           [Change "hello"; Submit; Approve]
           (at_rest (initial 0) (quiet (3 # 4) "sk-ant"))).
  reflexivity.
Defined.

(** X23. In the browser, on the mock, a submission that passes the guard
    never fails: when the next random draw exceeds 0.7 a request for
    approval becomes pending and no reply is shown; otherwise the reply
    is the processed text that quotes the input as typed. In both cases
    the conversation first gains the message of the operator. *)
Theorem submit_on_mock (sys : Sys) :
  is_empty (trim (inputValue (store sys))) = false ->
  isLoading (store sys) = false ->
  let w := world sys in
  let question :=
    mkMessage (Z_to_string (reading 0 w)) (inputValue (store sys)) user (reading 1 w) in
  let '(r, sys') := handleSubmit MockTauri.invoke (store sys) sys in
  r = Ok tt /\
  if MockTauri.exceeds_threshold (random w (random_draws w)) then
    messages (store sys') = messages (store sys) ++ [question] /\
    pendingApproval (store sys') = Some (dangerous_operation (Z_to_string (reading 2 w)))
  else
    messages (store sys')
    = messages (store sys) ++
      [ question;
        mkMessage (Z_to_string (reading 2 w + 1))
          ("AI回复: Processed message: " +:+ quote +:+ inputValue (store sys) +:+ quote)
          assistant (reading 3 w) ] /\
    pendingApproval (store sys') = pendingApproval (store sys).
Proof.
  assert (Hreply : forall text : string,
             strict_equals_string (VStr ("Processed message: " +:+ text)) "PENDING_APPROVAL"
             = false) by reflexivity.
  intros Ht Hl. run_handler_folded. rewrite Ht, Hl. cbn.
  unfold MockTauri.invoke. unfold_monad_folded. cbn.
  destruct (operationPreviews (store sys)); cbn;
    destruct (MockTauri.exceeds_threshold _); cbn;
    rewrite ?Hreply; cbn; rewrite <- ?app_assoc; repeat split;
    cbn; rewrite <- ?app_assoc; reflexivity.
Qed.

Lemma submit_on_mock_witness :
  let sys := at_rest (typed "hello") (quiet (1 # 2) "sk-ant") in
  let '(r, sys') := handleSubmit MockTauri.invoke (store sys) sys in
  r = Ok tt /\
  messages (store sys')
  = messages (store sys) ++
    [ mkMessage "1000" "hello" user 1001;
      mkMessage "1003" ("AI回复: Processed message: " +:+ quote +:+ "hello" +:+ quote)
        assistant 1003 ] /\
  pendingApproval (store sys') = None.
Proof.
  intros sys.
  pose proof (submit_on_mock sys eq_refl eq_refl) as H.
  cbv zeta in H.
  destruct (handleSubmit MockTauri.invoke (store sys) sys) as [r sys'].
  destruct H as [Hr H]. split; [exact Hr|]. exact H.
Defined.

(** X24. On the mock an accept always succeeds: the pending approval is
    cleared and the one message appended names the tool of the pending
    request as approved and executed, whatever its arguments. *)
Theorem approve_on_mock (sys : Sys) (p : PendingApproval) :
  pendingApproval (store sys) = Some p ->
  let w := world sys in
  let '(r, sys') := handleApproveOperation MockTauri.invoke (store sys) sys in
  r = Ok tt /\
  messages (store sys')
  = messages (store sys) ++
    [ mkMessage (Z_to_string (reading 0 w))
        ("操作结果: Tool call " +:+ toolName p +:+ " approved and executed")
        assistant (reading 1 w) ] /\
  pendingApproval (store sys') = None.
Proof.
  intros Hp. run_handler_folded. rewrite Hp. cbn.
  unfold MockTauri.invoke. unfold_monad_folded. cbn.
  destruct (operationPreviews (store sys)); cbn; repeat split.
Qed.

Lemma approve_on_mock_witness :
  let p := mkPendingApproval "7" "shell_executor" unconvertible "rm" in
  let sys := at_rest (awaiting "" p) (quiet (1 # 2) "sk-ant") in
  let '(r, sys') := handleApproveOperation MockTauri.invoke (store sys) sys in
  r = Ok tt /\
  messages (store sys')
  = messages (store sys) ++
    [ mkMessage "1000" "操作结果: Tool call shell_executor approved and executed"
        assistant 1001 ] /\
  pendingApproval (store sys') = None.
Proof.
  intros p sys. exact (approve_on_mock sys p eq_refl).
Defined.
